(** * A relay for image-to-video generation: functions/index.js

    The service is an Express application with three routes of interest,
    [/api/createVideo], [/api/checkStatus] and [/api/test].  Each handler
    reads [req.query], possibly fetches a credential from the secret store,
    possibly issues one call to the remote prediction API, and answers with
    [res.status(code).json(object)].

    The embedding follows the source function by function.  JavaScript
    values are JSON values or [undefined]; objects are finite maps from
    property names to values; [async]/[await] code is sequential code in a
    monad that threads the list of outbound calls and the console, and in
    which [throw] and [try]/[catch] are the error part.  A handler that
    throws has not answered: the promise it returned is rejected and the
    handler has sent nothing. *)

From Stdlib Require Import ZArith.
From stdpp Require Import base option list strings gmap fin_maps.

Local Open Scope string_scope.
Local Open Scope Z_scope.

(** ** Values *)

(** Data as it travels on the wire: what [JSON.parse] produces.  The query
    parser of Express produces strings, arrays and nested objects, and the
    remote API answers with arbitrary JSON.  Numbers are never computed with
    by the service; they are carried as integers. *)
#[local] Unset Elimination Schemes.
Inductive json : Type :=
  | JNull
  | JBool (b : bool)
  | JNum (n : Z)
  | JStr (s : string)
  | JArr (items : list json)
  | JObj (fields : gmap string json).
#[local] Set Elimination Schemes.

(** A JavaScript value held in a variable or a property slot: a JSON value,
    or [undefined].  Reading a property that an object does not have gives
    [undefined], which is what the lookup [o !! k] of a finite map gives. *)
Abbreviation jsval := (option json).
Abbreviation undefined := (@None json).

(** [ToBoolean]: the test performed by [!x] and [if (x)]. *)
Definition truthy (v : jsval) : bool :=
  match v with
  | None => false
  | Some JNull => false
  | Some (JBool b) => b
  | Some (JNum n) => negb (n =? 0)
  | Some (JStr s) => negb (String.eqb s "")
  | Some (JArr _) => true
  | Some (JObj _) => true
  end.

(** [v === "literal"]: strict equality against a string literal holds for
    that very string and for nothing else. *)
Definition strict_eq_str (v : jsval) (lit : string) : bool :=
  match v with
  | Some (JStr s) => String.eqb s lit
  | _ => false
  end.

(** A default parameter value replaces an argument that is [undefined], and
    only that. *)
Definition default_param (arg dflt : jsval) : jsval :=
  match arg with
  | None => dflt
  | Some _ => arg
  end.

(** [JSON.stringify] on an object, as the client reads it back: a property
    whose value is [undefined] is left out, every other property is kept as
    it is. *)
Definition JSON_stringify (obj : gmap string jsval) : gmap string json :=
  omap id obj.

(** ** Thrown values, outbound calls and the console *)

(** Any value can be thrown, and a promise can be rejected with any value:
    a thrown value is a [jsval].  An [Error] instance is the object of its
    properties, [message] among them. *)

Record prediction_input : Type :=
  { prompt : jsval; image : jsval; resolution : jsval }.

(** The argument of [replicate.predictions.create]. *)
Record create_args : Type :=
  { model : jsval; input : prediction_input }.

(** The calls that leave the process. *)
Inductive call : Type :=
  | AccessSecretVersion (name : string)
  | PredictionsCreate (auth : string) (args : create_args)
  | PredictionsGet (auth : string) (id : jsval).

Inductive logline : Type :=
  | ConsoleLog (text : string) (holes : list jsval)
  | ConsoleError (text : string) (error : jsval).

Record world : Type :=
  { outbound : list call; console : list logline }.

Definition world0 : world := {| outbound := []; console := [] |}.

Inductive outcome (A : Type) : Type :=
  | Return (a : A)
  | Throw (error : jsval).
Arguments Return {A} a.
Arguments Throw {A} error.

(** An [async] computation: it runs to completion from a world and either
    returns or throws, leaving the calls it made and the lines it logged. *)
Definition M (A : Type) : Type := world → outcome A * world.

#[global] Instance M_ret : MRet M := λ A a w, (Return a, w).

#[global] Instance M_bind : MBind M := λ A B f m w,
  match m w with
  | (Return a, w') => f a w'
  | (Throw error, w') => (Throw error, w')
  end.

Definition throw {A : Type} (error : jsval) : M A :=
  λ w, (Throw error, w).

(** [try { body } catch (error) { handler }] *)
Definition try_catch {A : Type} (body : M A) (handler : jsval → M A) : M A :=
  λ w,
    match body w with
    | (Return a, w') => (Return a, w')
    | (Throw error, w') => handler error w'
    end.

(** Performing an outbound call: it is recorded, then it returns or throws
    as the other side decides. *)
Definition perform {A : Type} (c : call) (answer : outcome A) : M A :=
  λ w, (answer, {| outbound := outbound w ++ [c]; console := console w |}).

(** The [TypeError] that the engine throws, as the object of its [name]
    and [message]; the [stack], whose text depends on where the code runs,
    is left out. *)
Definition TypeError (msg : string) : jsval :=
  Some (JObj {[ "name" := JStr "TypeError"; "message" := JStr msg ]}).

(** [ToString] on a value that [JSON.parse] built succeeds on a primitive;
    on an array it joins the elements, converting each one that is not
    [null]; on an object it calls the [toString] of [Object.prototype],
    unless the object has a property of its own under that name: such a
    property holds data, not a function, [valueOf] gives the object back,
    and the conversion throws. *)
Fixpoint stringifiable (v : json) : bool :=
  match v with
  | JArr items => forallb stringifiable items
  | JObj fields =>
      match fields !! "toString" with
      | Some _ => false
      | None => true
      end
  | _ => true
  end.

(** [undefined] converts to a string as well. *)
Definition convertible (v : jsval) : bool :=
  match v with
  | None => true
  | Some j => stringifiable j
  end.

(** A template literal: its holes are converted to strings from left to
    right, and the first one that cannot be converted throws.  The line is
    kept as the text of the literal with the values of its holes. *)
Definition template_literal (text : string) (holes : list jsval)
    : M (string * list jsval) :=
  if forallb convertible holes then mret (text, holes)
  else throw (TypeError "Cannot convert object to primitive value").

(** [error.message]: reading a property of [undefined] or of [null] throws;
    an object gives the property, [undefined] when it has none; any other
    value has no [message]. *)
Definition read_message (error : jsval) : M jsval :=
  match error with
  | None =>
      throw (TypeError "Cannot read properties of undefined (reading 'message')")
  | Some JNull =>
      throw (TypeError "Cannot read properties of null (reading 'message')")
  | Some (JObj fields) => mret (fields !! "message")
  | Some _ => mret undefined
  end.

Definition console_log (line : string * list jsval) : M unit :=
  λ w, (Return (), {| outbound := outbound w;
                      console := console w ++ [ConsoleLog line.1 line.2] |}).

Definition console_error (text : string) (error : jsval) : M unit :=
  λ w, (Return (), {| outbound := outbound w;
                      console := console w ++ [ConsoleError text error] |}).

(** ** Configuration *)

Module CONFIG.
Definition PROJECT_ID : string := "YOUR_PROJECT_NUMBER".
Definition SECRET_NAME : string := "Replicate_APIKey".
Definition DEFAULT_RESOLUTION : string := "480p".
Definition DEFAULT_MODEL : string := "bytedance/seedance-1-lite".
End CONFIG.

(** ** The two collaborators *)

(** The secret store and the remote prediction API are outside the
    program.  A request calls each operation at most once, so what they do
    during one request is a function of the arguments they are called with:
    they return a value or throw.  [accessSecretVersion] stands for the call
    together with the decoding of [version.payload.data] as UTF-8. *)
Record Env : Type :=
  { accessSecretVersion : string → outcome string;
    predictions_create : string → create_args → outcome (gmap string json);
    predictions_get : string → jsval → outcome (gmap string json) }.

(** What [res.status(code).json(object)] sends. *)
Record response : Type :=
  { status : Z; body : gmap string jsval }.

Definition res_json (code : Z) (obj : gmap string jsval) : M response :=
  mret {| status := code; body := obj |}.

Section Service.
Context (env : Env).

Definition getReplicateApiKey : M string :=
  let secretPath :=
    "projects/" +:+ CONFIG.PROJECT_ID +:+ "/secrets/" +:+ CONFIG.SECRET_NAME
      +:+ "/versions/latest" in
  perform (AccessSecretVersion secretPath) (accessSecretVersion env secretPath).

Definition createVideoGeneration (prompt imageUrl resolution : jsval) : M jsval :=
  let resolution :=
    default_param resolution (Some (JStr CONFIG.DEFAULT_RESOLUTION)) in
  try_catch
    (apiKey ← getReplicateApiKey;
     let args :=
       {| model := Some (JStr CONFIG.DEFAULT_MODEL);
          input := {| prompt := prompt; image := imageUrl;
                      resolution := resolution |} |} in
     prediction ← perform (PredictionsCreate apiKey args)
                          (predictions_create env apiKey args);
     line ← template_literal
               "Prediction created: ${prediction.id}, Status: ${prediction.status}"
               [prediction !! "id"; prediction !! "status"];
     console_log line;;
     mret (prediction !! "id"))
    (λ error,
       console_error "Error creating video generation:" error;;
       throw error).

Definition checkVideoStatus (taskId : jsval) : M (gmap string jsval) :=
  try_catch
    (apiKey ← getReplicateApiKey;
     prediction ← perform (PredictionsGet apiKey taskId)
                          (predictions_get env apiKey taskId);
     let response : gmap string jsval :=
       {[ "taskId" := prediction !! "id";
          "status" := prediction !! "status";
          "created_at" := prediction !! "created_at";
          "started_at" := prediction !! "started_at";
          "completed_at" := prediction !! "completed_at";
          "model" := prediction !! "model";
          "version" := prediction !! "version" ]} in
     if strict_eq_str (prediction !! "status") "succeeded" then
       mret (<["output_url" := prediction !! "output"]> response)
     else if strict_eq_str (prediction !! "status") "failed" then
       mret (<["error" := prediction !! "error"]> response)
     else
       mret response)
    (λ error,
       console_error "Error checking video status:" error;;
       throw error).

(** [app.get("/api/createVideo", ...)] *)
Definition api_createVideo (query : gmap string json) : M response :=
  try_catch
    (let prompt := query !! "prompt" in
     let imageUrl := query !! "imageUrl" in
     let resolution := query !! "resolution" in
     if negb (truthy prompt) || negb (truthy imageUrl) then
       res_json 400
         {[ "error" := Some (JStr "Missing required parameters: prompt and imageUrl") ]}
     else
       taskId ← createVideoGeneration prompt imageUrl resolution;
       res_json 200
         {[ "taskId" := taskId;
            "status" := Some (JStr "started");
            "message" := Some (JStr "Video generation task created successfully") ]})
    (λ error,
       console_error "Error in /api/createVideo:" error;;
       details ← read_message error;
       res_json 500
         {[ "error" := Some (JStr "Failed to create video generation task");
            "details" := details ]}).

(** [app.get("/api/checkStatus", ...)] *)
Definition api_checkStatus (query : gmap string json) : M response :=
  try_catch
    (let taskId := query !! "taskId" in
     if negb (truthy taskId) then
       res_json 400
         {[ "error" := Some (JStr "Missing required parameter: taskId") ]}
     else
       status ← checkVideoStatus taskId;
       res_json 200 status)
    (λ error,
       console_error "Error in /api/checkStatus:" error;;
       details ← read_message error;
       res_json 500
         {[ "error" := Some (JStr "Failed to check video status");
            "details" := details ]}).

(** [app.get("/api/test", ...)] *)
Definition api_test (query : gmap string json) : M response :=
  try_catch
    (res_json 200
       {[ "taskId" := Some (JStr "test-1116");
          "status" := Some (JStr "succeeded");
          "output_url" := Some (JStr "https://commondatastorage.googleapis.com/gtv-videos-bucket/sample/ForBiggerBlazes.mp4");
          "message" := Some (JStr "This is a test response") ]})
    (λ error,
       console_error "Error in /api/test:" error;;
       details ← read_message error;
       res_json 500
         {[ "error" := Some (JStr "Test endpoint failed");
            "details" := details ]}).

End Service.

(** ** Vocabulary of the statements *)

(** The name under which the credential is looked up, with the
    configuration filled in. *)
Definition secret_path : string :=
  "projects/YOUR_PROJECT_NUMBER/secrets/Replicate_APIKey/versions/latest".

(** [sent cs w]: the world [w] after the calls [cs] have left the process;
    [logged ls w]: after the lines [ls] went to the console. *)
Definition sent (cs : list call) (w : world) : world :=
  {| outbound := outbound w ++ cs; console := console w |}.

Definition logged (ls : list logline) (w : world) : world :=
  {| outbound := outbound w; console := console w ++ ls |}.

(** The argument object that [createVideoGeneration] hands to
    [replicate.predictions.create]. *)
Definition create_request (prompt imageUrl resolution : jsval) : create_args :=
  {| model := Some (JStr "bytedance/seedance-1-lite");
     input := {| prompt := prompt; image := imageUrl;
                 resolution := default_param resolution (Some (JStr "480p")) |} |}.

(** The object literal that [checkVideoStatus] starts from: seven
    properties, each read from the remote record. *)
Definition snapshot (prediction : gmap string json) : gmap string jsval :=
  {[ "taskId" := prediction !! "id";
     "status" := prediction !! "status";
     "created_at" := prediction !! "created_at";
     "started_at" := prediction !! "started_at";
     "completed_at" := prediction !! "completed_at";
     "model" := prediction !! "model";
     "version" := prediction !! "version" ]}.

(** The properties of the response of [/api/checkStatus] that are read from
    the remote record whatever its status, each with the property of the
    record it is read from. *)
Definition relayed_fields : list (string * string) :=
  [ ("taskId", "id"); ("status", "status"); ("created_at", "created_at");
    ("started_at", "started_at"); ("completed_at", "completed_at");
    ("model", "model"); ("version", "version") ].

(** A required parameter is missing or empty: the request does not carry
    it, or carries the empty string. *)
Definition absent_or_empty (v : jsval) : Prop :=
  v = None ∨ v = Some (JStr "").

(** The handler answers [resp] and leaves the world [w']. *)
Definition answers (handler : M response) (w : world) (resp : response) (w' : world) : Prop :=
  handler w = (Return resp, w').

(** The client finds the property [k] in the body it receives. *)
Definition on_wire (resp : response) (k : string) : jsval :=
  JSON_stringify (body resp) !! k.

(** HTTP 400 with an [error] property, and nothing left the process. *)
Definition bad_request (handler : M response) (w : world) : Prop :=
  ∃ resp w',
    answers handler w resp w' ∧
    status resp = 400 ∧
    is_Some (on_wire resp "error") ∧
    outbound w' = outbound w.

(** The thrown value is an object whose [message] is [msg]: an [Error]
    instance, or any object that carries a message. *)
Definition has_message (error : jsval) (msg : json) : Prop :=
  ∃ fields, error = Some (JObj fields) ∧ fields !! "message" = Some msg.

(** HTTP 500 with an [error] property and with [msg] under [details]. *)
Definition server_error (handler : M response) (w : world) (msg : json) : Prop :=
  ∃ resp w',
    answers handler w resp w' ∧
    status resp = 500 ∧
    is_Some (on_wire resp "error") ∧
    on_wire resp "details" = Some msg.


(** What the [catch] block of a route does with the value it caught, once
    the line is on the console: it answers HTTP 500 with the [message] of
    the value under [details], and it throws, without answering, when the
    value is [null] or [undefined]. *)
Definition caught (text : string) (error : jsval) : outcome response :=
  match error with
  | None =>
      Throw (TypeError "Cannot read properties of undefined (reading 'message')")
  | Some JNull =>
      Throw (TypeError "Cannot read properties of null (reading 'message')")
  | Some (JObj fields) =>
      Return {| status := 500;
                body := {[ "error" := Some (JStr text);
                           "details" := fields !! "message" ]} |}
  | Some _ =>
      Return {| status := 500;
                body := {[ "error" := Some (JStr text);
                           "details" := undefined ]} |}
  end.


(** The value that the failing template literal of [createVideoGeneration]
    throws. *)
Definition cannot_convert : jsval :=
  TypeError "Cannot convert object to primitive value".

(** The secret fetch throws, or it returns a key and the remote call made
    with that key throws. *)
Definition upstream_throws {A : Type} (env : Env) (remote : string → outcome A)
    (error : jsval) : Prop :=
  accessSecretVersion env secret_path = Throw error ∨
  ∃ key, accessSecretVersion env secret_path = Return key ∧
         remote key = Throw error.

(** A parameter that the query parser delivered as an array or as a nested
    object. *)
Definition structured (v : jsval) : Prop :=
  match v with
  | Some (JArr _) | Some (JObj _) => True
  | _ => False
  end.

(** The property names that an answer of [/api/checkStatus] built from a
    remote record can have. *)
Definition status_properties : list string :=
  [ "taskId"; "status"; "created_at"; "started_at"; "completed_at"; "model";
    "version"; "output_url"; "error" ].

(** ** Sample collaborators and records *)

Module Sample.

Definition env (secret : outcome string)
    (created fetched : outcome (gmap string json)) : Env :=
  {| accessSecretVersion := λ _, secret;
     predictions_create := λ _ _, created;
     predictions_get := λ _ _, fetched |}.

Definition key : string := "r8_0123".

Definition record (st : string) : gmap string json :=
  {[ "id" := JStr "abc123xyz";
     "status" := JStr st;
     "created_at" := JStr "2025-02-02T10:00:00.000Z";
     "model" := JStr "bytedance/seedance-1-lite";
     "version" := JStr "hidden";
     "output" := JStr "https://replicate.delivery/pbxt/video.mp4";
     "error" := JStr "NSFW content detected" ]}.

(** A record that carries nothing but an identifier and a status. *)
Definition bare_record : gmap string json :=
  {[ "id" := JStr "abc123xyz"; "status" := JStr "processing" ]}.

Definition create_query : gmap string json :=
  {[ "prompt" := JStr "Make it animated";
     "imageUrl" := JStr "https://example.com/image.jpg" ]}.

Definition status_query : gmap string json :=
  {[ "taskId" := JStr "abc123xyz" ]}.

(** An [Error] instance with the given message. *)
Definition Error (msg : string) : jsval :=
  Some (JObj {[ "name" := JStr "Error"; "message" := JStr msg ]}).

Definition unreachable : jsval := Error "connect ECONNREFUSED 127.0.0.1:443".

(** A store in which the secret does not exist, and a remote API that does
    not know the task. *)
Definition no_secret : jsval :=
  Some (JObj {[ "name" := JStr "Error"; "code" := JNum 5;
                "message" := JStr "5 NOT_FOUND: Secret [Replicate_APIKey] not found" ]}).

Definition no_task : jsval :=
  Some (JObj {[ "name" := JStr "ApiError";
                "message" := JStr "Request failed with status 404 Not Found" ]}).

(** A record whose identifier is an object with a [toString] entry. *)
Definition odd_record : gmap string json :=
  {[ "id" := JObj {[ "toString" := JStr "abc123xyz" ]};
     "status" := JStr "starting" ]}.

End Sample.

(** * Properties *)

(** ** Running the monad *)

Lemma bind_run {A B : Type} (m : M A) (f : A → M B) (w : world) :
  (m ≫= f) w =
    match m w with
    | (Return a, w') => f a w'
    | (Throw error, w') => (Throw error, w')
    end.
Proof. reflexivity. Qed.

Lemma try_catch_return {A : Type} (m : M A) (h : jsval → M A) w a w' :
  m w = (Return a, w') → try_catch m h w = (Return a, w').
Proof. intros Hm. unfold try_catch. by rewrite Hm. Qed.

Lemma try_catch_throw {A : Type} (m : M A) (h : jsval → M A) w error w' :
  m w = (Throw error, w') → try_catch m h w = h error w'.
Proof. intros Hm. unfold try_catch. by rewrite Hm. Qed.

Lemma perform_run {A : Type} (c : call) (answer : outcome A) w :
  perform c answer w = (answer, sent [c] w).
Proof. reflexivity. Qed.

Lemma console_error_run text error w :
  console_error text error w = (Return (), logged [ConsoleError text error] w).
Proof. reflexivity. Qed.

Lemma sent_sent cs1 cs2 w : sent cs2 (sent cs1 w) = sent (cs1 ++ cs2)%list w.
Proof. unfold sent. simpl. by rewrite <- (assoc_L (++)). Qed.

Lemma logged_logged ls1 ls2 w :
  logged ls2 (logged ls1 w) = logged (ls1 ++ ls2)%list w.
Proof. unfold logged. simpl. by rewrite <- (assoc_L (++)). Qed.

Lemma getReplicateApiKey_run env w :
  getReplicateApiKey env w =
    (accessSecretVersion env secret_path, sent [AccessSecretVersion secret_path] w).
Proof. reflexivity. Qed.

(** ** Values *)

Lemma strict_eq_str_true v lit :
  strict_eq_str v lit = true ↔ v = Some (JStr lit).
Proof.
  unfold strict_eq_str. split.
  - destruct v as [[| | |s| |]|]; try discriminate.
    intros Heq. apply String.eqb_eq in Heq. by subst.
  - intros ->. apply String.eqb_refl.
Qed.

Lemma strict_eq_str_false v lit :
  strict_eq_str v lit = false ↔ v ≠ Some (JStr lit).
Proof.
  rewrite <- strict_eq_str_true. destruct (strict_eq_str v lit); naive_solver.
Qed.

Lemma absent_or_empty_falsy v : absent_or_empty v → truthy v = false.
Proof. by intros [-> | ->]. Qed.

(** A string passes the test [!x] exactly when it is not empty. *)
Lemma truthy_string s : truthy (Some (JStr s)) = true ↔ s ≠ "".
Proof.
  simpl. rewrite negb_true_iff. split.
  - intros Hne ->. by rewrite String.eqb_refl in Hne.
  - intros Hne. by apply String.eqb_neq.
Qed.

(** What the client finds under a property name after [JSON.stringify]: the
    value of the property, unless the object lacks it or holds [undefined]
    there. *)
Lemma JSON_stringify_lookup (obj : gmap string jsval) (k : string) :
  JSON_stringify obj !! k = obj !! k ≫= id.
Proof. unfold JSON_stringify. apply lookup_omap. Qed.

Lemma on_wire_has resp k v : body resp !! k = Some v → on_wire resp k = v.
Proof. intros Hk. unfold on_wire. by rewrite JSON_stringify_lookup, Hk. Qed.

Lemma on_wire_lacks resp k : body resp !! k = None → on_wire resp k = None.
Proof. intros Hk. unfold on_wire. by rewrite JSON_stringify_lookup, Hk. Qed.

(** ** Template literals and [catch] blocks *)

(** A string, a number, a boolean, [null] and [undefined] convert to a
    string. *)
Lemma convertible_primitive v :
  match v with
  | Some (JArr _) | Some (JObj _) => False
  | _ => True
  end →
  convertible v = true.
Proof. by destruct v as [[| | | | |]|]. Qed.

Lemma template_literal_returns text holes w :
  forallb convertible holes = true →
  template_literal text holes w = (Return (text, holes), w).
Proof. intros Hok. unfold template_literal. by rewrite Hok. Qed.

Lemma template_literal_throws text holes w :
  forallb convertible holes = false →
  template_literal text holes w = (Throw cannot_convert, w).
Proof. intros Hno. unfold template_literal. by rewrite Hno. Qed.

(** The [catch] block of a route: the line goes to the console, then the
    message of the caught value is read and the answer is built. *)
Lemma catch_block_run text1 text2 error w :
  (console_error text2 error;;
   details ← read_message error;
   res_json 500 {[ "error" := Some (JStr text1); "details" := details ]}) w
  = (caught text1 error, logged [ConsoleError text2 error] w).
Proof.
  rewrite bind_run, console_error_run.
  by destruct error as [[| | | | |]|].
Qed.

Lemma caught_message text error msg :
  has_message error msg →
  caught text error =
    Return {| status := 500;
              body := {[ "error" := Some (JStr text); "details" := Some msg ]} |}.
Proof. intros (fields & -> & Hmsg). simpl. by rewrite Hmsg. Qed.


(** ** [createVideoGeneration] *)

Section CreateVideoGeneration.
Context (env : Env) (prompt imageUrl resolution : jsval).

Lemma createVideoGeneration_secret_throws error w :
  accessSecretVersion env secret_path = Throw error →
  createVideoGeneration env prompt imageUrl resolution w =
    (Throw error,
     logged [ConsoleError "Error creating video generation:" error]
       (sent [AccessSecretVersion secret_path] w)).
Proof.
  intros Hsecret. unfold createVideoGeneration.
  erewrite try_catch_throw.
  2: { rewrite bind_run, getReplicateApiKey_run, Hsecret. reflexivity. }
  reflexivity.
Qed.

(** Once the key is there, the [try] block makes the call. *)
Ltac calls_create Hsecret :=
  rewrite bind_run, getReplicateApiKey_run, Hsecret;
  rewrite bind_run, perform_run; cbv zeta;
  change {| model := _; input := _ |}
    with (create_request prompt imageUrl resolution);
  rewrite sent_sent.

Lemma createVideoGeneration_create_throws key error w :
  accessSecretVersion env secret_path = Return key →
  predictions_create env key (create_request prompt imageUrl resolution)
    = Throw error →
  createVideoGeneration env prompt imageUrl resolution w =
    (Throw error,
     logged [ConsoleError "Error creating video generation:" error]
       (sent [AccessSecretVersion secret_path;
              PredictionsCreate key (create_request prompt imageUrl resolution)] w)).
Proof.
  intros Hsecret Hcreate. unfold createVideoGeneration.
  erewrite try_catch_throw.
  2: { calls_create Hsecret. by rewrite Hcreate. }
  reflexivity.
Qed.

(** The record came back, but its [id] or its [status] cannot be converted
    to a string: the template literal of the log line throws, inside the
    [try] block. *)
Lemma createVideoGeneration_log_throws key prediction w :
  accessSecretVersion env secret_path = Return key →
  predictions_create env key (create_request prompt imageUrl resolution)
    = Return prediction →
  convertible (prediction !! "id") && convertible (prediction !! "status")
    = false →
  createVideoGeneration env prompt imageUrl resolution w =
    (Throw cannot_convert,
     logged [ConsoleError "Error creating video generation:" cannot_convert]
       (sent [AccessSecretVersion secret_path;
              PredictionsCreate key (create_request prompt imageUrl resolution)] w)).
Proof.
  intros Hsecret Hcreate Hno. unfold createVideoGeneration.
  erewrite try_catch_throw.
  2: { calls_create Hsecret. rewrite Hcreate.
       rewrite bind_run, template_literal_throws; [done|].
       cbn [forallb]. by rewrite andb_true_r. }
  reflexivity.
Qed.

Lemma createVideoGeneration_returns key prediction w :
  accessSecretVersion env secret_path = Return key →
  predictions_create env key (create_request prompt imageUrl resolution)
    = Return prediction →
  convertible (prediction !! "id") && convertible (prediction !! "status")
    = true →
  createVideoGeneration env prompt imageUrl resolution w =
    (Return (prediction !! "id"),
     logged [ConsoleLog "Prediction created: ${prediction.id}, Status: ${prediction.status}"
                        [prediction !! "id"; prediction !! "status"]]
       (sent [AccessSecretVersion secret_path;
              PredictionsCreate key (create_request prompt imageUrl resolution)] w)).
Proof.
  intros Hsecret Hcreate Hok. unfold createVideoGeneration.
  apply try_catch_return.
  calls_create Hsecret. rewrite Hcreate.
  rewrite bind_run, template_literal_returns; [done|].
  cbn [forallb]. by rewrite andb_true_r.
Qed.

(** The calls that [createVideoGeneration] makes, whatever happens: the
    secret fetch, then, when a key came back, one "create prediction". *)
Lemma createVideoGeneration_calls w :
  ∃ r w',
    createVideoGeneration env prompt imageUrl resolution w = (r, w') ∧
    (outbound w' = outbound (sent [AccessSecretVersion secret_path] w) ∨
     ∃ key,
       accessSecretVersion env secret_path = Return key ∧
       outbound w' =
         outbound (sent [AccessSecretVersion secret_path;
                         PredictionsCreate key
                           (create_request prompt imageUrl resolution)] w)).
Proof.
  destruct (accessSecretVersion env secret_path) as [key|error] eqn:Hsecret.
  - destruct (predictions_create env key
                (create_request prompt imageUrl resolution))
      as [prediction|error] eqn:Hcreate.
    + destruct (convertible (prediction !! "id")
                && convertible (prediction !! "status")) eqn:Hok.
      * eexists _, _. split; [by eapply createVideoGeneration_returns|].
        right. by exists key.
      * eexists _, _. split; [by eapply createVideoGeneration_log_throws|].
        right. by exists key.
    + eexists _, _. split; [by eapply createVideoGeneration_create_throws|].
      right. by exists key.
  - eexists _, _. split; [by eapply createVideoGeneration_secret_throws|].
    by left.
Qed.

End CreateVideoGeneration.

(** ** [checkVideoStatus] *)

Section CheckVideoStatus.
Context (env : Env) (taskId : jsval).

Lemma checkVideoStatus_secret_throws error w :
  accessSecretVersion env secret_path = Throw error →
  checkVideoStatus env taskId w =
    (Throw error,
     logged [ConsoleError "Error checking video status:" error]
       (sent [AccessSecretVersion secret_path] w)).
Proof.
  intros Hsecret. unfold checkVideoStatus.
  erewrite try_catch_throw.
  2: { rewrite bind_run, getReplicateApiKey_run, Hsecret. reflexivity. }
  reflexivity.
Qed.

Lemma checkVideoStatus_get_throws key error w :
  accessSecretVersion env secret_path = Return key →
  predictions_get env key taskId = Throw error →
  checkVideoStatus env taskId w =
    (Throw error,
     logged [ConsoleError "Error checking video status:" error]
       (sent [AccessSecretVersion secret_path; PredictionsGet key taskId] w)).
Proof.
  intros Hsecret Hget. unfold checkVideoStatus.
  erewrite try_catch_throw.
  2: { rewrite bind_run, getReplicateApiKey_run, Hsecret.
       rewrite bind_run, perform_run, Hget, sent_sent. reflexivity. }
  reflexivity.
Qed.

Context (key : string) (prediction : gmap string json).
Hypothesis Hsecret : accessSecretVersion env secret_path = Return key.
Hypothesis Hget : predictions_get env key taskId = Return prediction.

(** Once the key and the record are there, what is left of the [try] block
    runs on the record. *)
Lemma checkVideoStatus_fetches (k : gmap string json → M (gmap string jsval)) h w :
  try_catch (apiKey ← getReplicateApiKey env;
             prediction ← perform (PredictionsGet apiKey taskId)
                                  (predictions_get env apiKey taskId);
             k prediction) h w =
  try_catch (k prediction) h
    (sent [AccessSecretVersion secret_path; PredictionsGet key taskId] w).
Proof.
  unfold try_catch.
  rewrite bind_run, getReplicateApiKey_run, Hsecret.
  rewrite bind_run, perform_run, Hget, sent_sent. reflexivity.
Qed.

Lemma checkVideoStatus_succeeded w :
  prediction !! "status" = Some (JStr "succeeded") →
  checkVideoStatus env taskId w =
    (Return (<["output_url" := prediction !! "output"]> (snapshot prediction)),
     sent [AccessSecretVersion secret_path; PredictionsGet key taskId] w).
Proof.
  intros Hstatus. unfold checkVideoStatus.
  rewrite checkVideoStatus_fetches. cbv zeta.
  apply strict_eq_str_true in Hstatus. rewrite Hstatus. reflexivity.
Qed.

Lemma checkVideoStatus_failed w :
  prediction !! "status" = Some (JStr "failed") →
  checkVideoStatus env taskId w =
    (Return (<["error" := prediction !! "error"]> (snapshot prediction)),
     sent [AccessSecretVersion secret_path; PredictionsGet key taskId] w).
Proof.
  intros Hstatus. unfold checkVideoStatus.
  rewrite checkVideoStatus_fetches. cbv zeta.
  assert (strict_eq_str (prediction !! "status") "succeeded" = false) as ->
    by by rewrite Hstatus.
  apply strict_eq_str_true in Hstatus. rewrite Hstatus. reflexivity.
Qed.

Lemma checkVideoStatus_pending w :
  prediction !! "status" ≠ Some (JStr "succeeded") →
  prediction !! "status" ≠ Some (JStr "failed") →
  checkVideoStatus env taskId w =
    (Return (snapshot prediction),
     sent [AccessSecretVersion secret_path; PredictionsGet key taskId] w).
Proof.
  intros Hs Hf. unfold checkVideoStatus.
  rewrite checkVideoStatus_fetches. cbv zeta.
  apply strict_eq_str_false in Hs, Hf. rewrite Hs, Hf. reflexivity.
Qed.

(** Whatever the record says, [checkVideoStatus] returns an object, and that
    object extends the seven properties read from the record. *)
Lemma checkVideoStatus_returns w :
  ∃ obj,
    checkVideoStatus env taskId w =
      (Return obj,
       sent [AccessSecretVersion secret_path; PredictionsGet key taskId] w) ∧
    ∀ k v, snapshot prediction !! k = Some v → obj !! k = Some v.
Proof.
  destruct (strict_eq_str (prediction !! "status") "succeeded") eqn:Hs.
  { apply strict_eq_str_true in Hs. eexists. split.
    - by apply checkVideoStatus_succeeded.
    - intros k v Hk. rewrite lookup_insert_ne; [done|].
      intros <-. by vm_compute in Hk. }
  destruct (strict_eq_str (prediction !! "status") "failed") eqn:Hf.
  { apply strict_eq_str_true in Hf. eexists. split.
    - by apply checkVideoStatus_failed.
    - intros k v Hk. rewrite lookup_insert_ne; [done|].
      intros <-. by vm_compute in Hk. }
  apply strict_eq_str_false in Hs, Hf. eexists. split.
  - by apply checkVideoStatus_pending.
  - done.
Qed.

End CheckVideoStatus.

(** ** The handlers *)

Section Handlers.
Context (env : Env) (query : gmap string json).

Lemma api_createVideo_rejects w :
  truthy (query !! "prompt") = false ∨ truthy (query !! "imageUrl") = false →
  api_createVideo env query w =
    (Return {| status := 400;
               body := {[ "error" :=
                 Some (JStr "Missing required parameters: prompt and imageUrl") ]} |},
     w).
Proof.
  intros Hfalsy. unfold api_createVideo. apply try_catch_return. cbv zeta.
  assert (negb (truthy (query !! "prompt")) || negb (truthy (query !! "imageUrl"))
          = true) as ->; [|done].
  destruct Hfalsy as [-> | ->]; [done|]. apply orb_true_r.
Qed.

Lemma api_createVideo_started taskId w w' :
  truthy (query !! "prompt") = true →
  truthy (query !! "imageUrl") = true →
  createVideoGeneration env (query !! "prompt") (query !! "imageUrl")
    (query !! "resolution") w = (Return taskId, w') →
  api_createVideo env query w =
    (Return {| status := 200;
               body := {[ "taskId" := taskId;
                          "status" := Some (JStr "started");
                          "message" :=
                            Some (JStr "Video generation task created successfully") ]} |},
     w').
Proof.
  intros Hp Hi Hrun. unfold api_createVideo. apply try_catch_return. cbv zeta.
  rewrite Hp, Hi. cbn [negb orb].
  by rewrite bind_run, Hrun.
Qed.

Lemma api_createVideo_fails error w w' :
  truthy (query !! "prompt") = true →
  truthy (query !! "imageUrl") = true →
  createVideoGeneration env (query !! "prompt") (query !! "imageUrl")
    (query !! "resolution") w = (Throw error, w') →
  api_createVideo env query w =
    (caught "Failed to create video generation task" error,
     logged [ConsoleError "Error in /api/createVideo:" error] w').
Proof.
  intros Hp Hi Hrun. unfold api_createVideo.
  erewrite try_catch_throw.
  2: { cbv zeta. rewrite Hp, Hi. cbn [negb orb].
       by rewrite bind_run, Hrun. }
  apply catch_block_run.
Qed.

Lemma api_checkStatus_rejects w :
  truthy (query !! "taskId") = false →
  api_checkStatus env query w =
    (Return {| status := 400;
               body := {[ "error" :=
                 Some (JStr "Missing required parameter: taskId") ]} |},
     w).
Proof.
  intros Hfalsy. unfold api_checkStatus. apply try_catch_return. cbv zeta.
  by rewrite Hfalsy.
Qed.

Lemma api_checkStatus_relays obj w w' :
  truthy (query !! "taskId") = true →
  checkVideoStatus env (query !! "taskId") w = (Return obj, w') →
  api_checkStatus env query w = (Return {| status := 200; body := obj |}, w').
Proof.
  intros Ht Hrun. unfold api_checkStatus. apply try_catch_return. cbv zeta.
  rewrite Ht. cbn [negb]. by rewrite bind_run, Hrun.
Qed.

Lemma api_checkStatus_fails error w w' :
  truthy (query !! "taskId") = true →
  checkVideoStatus env (query !! "taskId") w = (Throw error, w') →
  api_checkStatus env query w =
    (caught "Failed to check video status" error,
     logged [ConsoleError "Error in /api/checkStatus:" error] w').
Proof.
  intros Ht Hrun. unfold api_checkStatus.
  erewrite try_catch_throw.
  2: { cbv zeta. rewrite Ht. cbn [negb]. by rewrite bind_run, Hrun. }
  apply catch_block_run.
Qed.

End Handlers.

(** The calls that leave the process while [/api/createVideo] is served:
    none, or the secret fetch alone, or the secret fetch followed by one
    "create prediction" made with the key that came back. *)
Lemma api_createVideo_outbound env query w :
  outbound (api_createVideo env query w).2 = outbound w ∨
  outbound (api_createVideo env query w).2
    = (outbound w ++ [AccessSecretVersion secret_path])%list ∨
  ∃ key,
    truthy (query !! "prompt") = true ∧
    truthy (query !! "imageUrl") = true ∧
    accessSecretVersion env secret_path = Return key ∧
    outbound (api_createVideo env query w).2
      = (outbound w ++
         [AccessSecretVersion secret_path;
          PredictionsCreate key
            (create_request (query !! "prompt") (query !! "imageUrl")
               (query !! "resolution"))])%list.
Proof.
  destruct (truthy (query !! "prompt")) eqn:Hp;
    [|left; rewrite api_createVideo_rejects; auto].
  destruct (truthy (query !! "imageUrl")) eqn:Hi;
    [|left; rewrite api_createVideo_rejects; auto].
  destruct (createVideoGeneration_calls env (query !! "prompt")
              (query !! "imageUrl") (query !! "resolution") w)
    as (r & w' & Hrun & Hcalls).
  assert (outbound (api_createVideo env query w).2 = outbound w') as ->.
  { destruct r as [taskId|error].
    - by erewrite api_createVideo_started.
    - by erewrite api_createVideo_fails. }
  destruct Hcalls as [-> | (key & Hsecret & ->)]; [by right; left|].
  right; right. by exists key.
Qed.

(** ** Worked requests *)

Example createVideo_sample_run :
  api_createVideo
    (Sample.env (Return Sample.key) (Return (Sample.record "starting"))
       (Throw Sample.unreachable))
    Sample.create_query world0
  = (Return {| status := 200;
               body := {[ "taskId" := Some (JStr "abc123xyz");
                          "status" := Some (JStr "started");
                          "message" :=
                            Some (JStr "Video generation task created successfully") ]} |},
     {| outbound :=
          [AccessSecretVersion secret_path;
           PredictionsCreate Sample.key
             {| model := Some (JStr "bytedance/seedance-1-lite");
                input := {| prompt := Some (JStr "Make it animated");
                            image := Some (JStr "https://example.com/image.jpg");
                            resolution := Some (JStr "480p") |} |}];
        console :=
          [ConsoleLog "Prediction created: ${prediction.id}, Status: ${prediction.status}"
                      [Some (JStr "abc123xyz"); Some (JStr "starting")]] |}).
Proof. vm_compute. reflexivity. Qed.

Example checkStatus_secret_unreachable :
  api_checkStatus
    (Sample.env (Throw Sample.unreachable) (Throw Sample.unreachable)
       (Return (Sample.record "succeeded")))
    Sample.status_query world0
  = (Return {| status := 500;
               body := {[ "error" := Some (JStr "Failed to check video status");
                          "details" :=
                            Some (JStr "connect ECONNREFUSED 127.0.0.1:443") ]} |},
     {| outbound := [AccessSecretVersion secret_path];
        console :=
          [ConsoleError "Error checking video status:" Sample.unreachable;
           ConsoleError "Error in /api/checkStatus:" Sample.unreachable] |}).
Proof. vm_compute. reflexivity. Qed.

(** The remote API created the task, but the identifier of the record
    cannot be converted to a string: the log line throws and the answer is
    HTTP 500. *)
Example createVideo_odd_record :
  ∃ w',
    api_createVideo
      (Sample.env (Return Sample.key) (Return Sample.odd_record)
         (Throw Sample.no_task))
      Sample.create_query world0
    = (Return {| status := 500;
                 body := {[ "error" := Some (JStr "Failed to create video generation task");
                            "details" :=
                              Some (JStr "Cannot convert object to primitive value") ]} |},
       w') ∧
    outbound w' =
      [AccessSecretVersion secret_path;
       PredictionsCreate Sample.key
         (create_request (Some (JStr "Make it animated"))
            (Some (JStr "https://example.com/image.jpg")) undefined)].
Proof. eexists. split; vm_compute; reflexivity. Qed.

(** The secret store rejects with [undefined]: both [catch] blocks log, and
    the handler throws while it reads the message; nothing is answered. *)
Example checkStatus_rejected_with_undefined :
  api_checkStatus
    (Sample.env (Throw undefined) (Throw Sample.unreachable)
       (Return (Sample.record "succeeded")))
    Sample.status_query world0
  = (Throw (TypeError "Cannot read properties of undefined (reading 'message')"),
     {| outbound := [AccessSecretVersion secret_path];
        console :=
          [ConsoleError "Error checking video status:" undefined;
           ConsoleError "Error in /api/checkStatus:" undefined] |}).
Proof. vm_compute. reflexivity. Qed.

(** A property that the remote record does not have is a property of the
    answered object all the same, holding [undefined]; [JSON.stringify]
    leaves it out of the body that the client reads. *)
Example checkStatus_bare_record :
  ∃ resp w',
    answers
      (api_checkStatus
         (Sample.env (Return Sample.key) (Throw Sample.unreachable)
            (Return Sample.bare_record))
         Sample.status_query) world0 resp w' ∧
    body resp !! "version" = Some undefined ∧
    on_wire resp "version" = None ∧
    JSON_stringify (body resp) =
      {[ "taskId" := JStr "abc123xyz"; "status" := JStr "processing" ]}.
Proof.
  eexists _, _. split; [by vm_compute|].
  split; [by vm_compute|]. split; by vm_compute.
Qed.

(** * The claims *)

(** ** Validation *)

(** C1.  A request to [/api/createVideo] whose [prompt] or [imageUrl] is
    missing or empty, and a request to [/api/checkStatus] whose [taskId] is
    missing or empty, is answered with HTTP 400 and a body that carries an
    [error] property; the list of outbound calls is left as it was, so the
    secret store and the remote API are not contacted. *)
Theorem missing_parameter_is_rejected env query w :
  (absent_or_empty (query !! "prompt") ∨ absent_or_empty (query !! "imageUrl") →
   bad_request (api_createVideo env query) w) ∧
  (absent_or_empty (query !! "taskId") →
   bad_request (api_checkStatus env query) w).
Proof.
  split.
  - intros Hmissing.
    exists {| status := 400;
              body := {[ "error" :=
                Some (JStr "Missing required parameters: prompt and imageUrl") ]} |}, w.
    split; [|by repeat split].
    apply api_createVideo_rejects.
    destruct Hmissing as [H|H]; [left|right]; by apply absent_or_empty_falsy.
  - intros Hmissing.
    exists {| status := 400;
              body := {[ "error" :=
                Some (JStr "Missing required parameter: taskId") ]} |}, w.
    split; [|by repeat split].
    by apply api_checkStatus_rejects, absent_or_empty_falsy.
Qed.

Lemma missing_parameter_is_rejected_witness :
  bad_request
    (api_createVideo
       (Sample.env (Return Sample.key) (Return (Sample.record "starting"))
          (Return (Sample.record "processing")))
       {[ "prompt" := JStr ""; "imageUrl" := JStr "https://example.com/image.jpg" ]})
    world0 ∧
  bad_request
    (api_checkStatus
       (Sample.env (Return Sample.key) (Return (Sample.record "starting"))
          (Return (Sample.record "processing")))
       {[ "prompt" := JStr ""; "imageUrl" := JStr "https://example.com/image.jpg" ]})
    world0.
Proof.
  split.
  - apply missing_parameter_is_rejected. left. right. vm_compute. reflexivity.
  - apply missing_parameter_is_rejected. left. vm_compute. reflexivity.
Defined.

(** ** Creating a task *)

(** C5.  When [prompt] and [imageUrl] pass the test [!x] (for a string: it
    is not empty), the secret fetch returns a key and "create prediction"
    returns a record whose [id] and [status] can be written into the log
    line (strings can, see [convertible_primitive]), [/api/createVideo]
    answers HTTP 200 with the object [{taskId, status: "started", message}],
    where [taskId] is the [id] of the record that the remote API
    returned. *)
Theorem createVideo_started env query key prediction w :
  truthy (query !! "prompt") = true →
  truthy (query !! "imageUrl") = true →
  accessSecretVersion env secret_path = Return key →
  predictions_create env key
    (create_request (query !! "prompt") (query !! "imageUrl")
       (query !! "resolution")) = Return prediction →
  convertible (prediction !! "id") = true →
  convertible (prediction !! "status") = true →
  ∃ resp w',
    answers (api_createVideo env query) w resp w' ∧
    status resp = 200 ∧
    body resp =
      {[ "taskId" := prediction !! "id";
         "status" := Some (JStr "started");
         "message" := Some (JStr "Video generation task created successfully") ]} ∧
    on_wire resp "taskId" = prediction !! "id" ∧
    on_wire resp "status" = Some (JStr "started") ∧
    on_wire resp "message" =
      Some (JStr "Video generation task created successfully").
Proof.
  intros Hp Hi Hsecret Hcreate Hid Hstatus.
  eexists _, _. split.
  { unfold answers. apply api_createVideo_started; [done..|].
    eapply createVideoGeneration_returns; [done..|]. by rewrite Hid, Hstatus. }
  repeat split; by apply on_wire_has.
Qed.

Lemma createVideo_started_witness :
  ∃ resp w',
    answers
      (api_createVideo
         (Sample.env (Return Sample.key) (Return (Sample.record "starting"))
            (Throw Sample.unreachable))
         Sample.create_query) world0 resp w' ∧
    status resp = 200 ∧
    body resp =
      {[ "taskId" := Some (JStr "abc123xyz");
         "status" := Some (JStr "started");
         "message" := Some (JStr "Video generation task created successfully") ]} ∧
    on_wire resp "taskId" = Some (JStr "abc123xyz") ∧
    on_wire resp "status" = Some (JStr "started") ∧
    on_wire resp "message" =
      Some (JStr "Video generation task created successfully").
Proof.
  apply (createVideo_started
           (Sample.env (Return Sample.key) (Return (Sample.record "starting"))
              (Throw Sample.unreachable))
           Sample.create_query Sample.key (Sample.record "starting") world0);
    vm_compute; reflexivity.
Defined.

(** ** Upstream failures *)

(** C6.  A request that passes validation and during which the secret fetch
    or the remote call throws an error is answered with HTTP 500; the body
    carries an [error] property and a [details] property, and [details] is
    the message of the thrown error, unchanged.  This holds for
    [/api/createVideo] and for [/api/checkStatus], and for every thrown
    object that has a message, whatever else it carries. *)
Theorem upstream_failure_is_500 env query error msg w :
  has_message error msg →
  (truthy (query !! "prompt") = true →
   truthy (query !! "imageUrl") = true →
   upstream_throws env
     (λ key, predictions_create env key
        (create_request (query !! "prompt") (query !! "imageUrl")
           (query !! "resolution"))) error →
   server_error (api_createVideo env query) w msg) ∧
  (truthy (query !! "taskId") = true →
   upstream_throws env
     (λ key, predictions_get env key (query !! "taskId")) error →
   server_error (api_checkStatus env query) w msg).
Proof.
  intros Hmsg.
  assert (∀ handler text1 text2 w',
            handler w = (caught text1 error, logged [ConsoleError text2 error] w') →
            server_error handler w msg) as Hshape.
  { intros handler text1 text2 w' Hrun.
    rewrite (caught_message _ _ _ Hmsg) in Hrun.
    eexists _, _. split; [exact Hrun|].
    split; [done|]. split; [|by apply on_wire_has].
    exists (JStr text1). by apply on_wire_has. }
  split.
  - intros Hp Hi [Hsecret | (key & Hsecret & Hcreate)]; eapply Hshape.
    + apply api_createVideo_fails; [done..|].
      by apply createVideoGeneration_secret_throws.
    + apply api_createVideo_fails; [done..|].
      by eapply createVideoGeneration_create_throws.
  - intros Ht [Hsecret | (key & Hsecret & Hget)]; eapply Hshape.
    + apply api_checkStatus_fails; [done|].
      by apply checkVideoStatus_secret_throws.
    + apply api_checkStatus_fails; [done|].
      by eapply checkVideoStatus_get_throws.
Qed.

Lemma upstream_failure_is_500_witness :
  server_error
    (api_createVideo
       (Sample.env (Throw Sample.unreachable) (Return (Sample.record "starting"))
          (Return (Sample.record "processing")))
       Sample.create_query) world0
    (JStr "connect ECONNREFUSED 127.0.0.1:443") ∧
  server_error
    (api_checkStatus
       (Sample.env (Return Sample.key) (Return (Sample.record "starting"))
          (Throw Sample.unreachable))
       Sample.status_query) world0
    (JStr "connect ECONNREFUSED 127.0.0.1:443").
Proof.
  assert (has_message Sample.unreachable
            (JStr "connect ECONNREFUSED 127.0.0.1:443")) as Hmsg.
  { eexists. split; [reflexivity|]. vm_compute. reflexivity. }
  split.
  - apply (upstream_failure_is_500 _ _ Sample.unreachable _ world0 Hmsg);
      [vm_compute; reflexivity..|].
    left. reflexivity.
  - apply (upstream_failure_is_500 _ _ Sample.unreachable _ world0 Hmsg);
      [vm_compute; reflexivity|].
    right. exists Sample.key. split; reflexivity.
Defined.

(** ** The test route *)

(** C7.  [/api/test] answers HTTP 200 with the fixed literal body, whatever
    the query, and the world is left as it was: no call leaves the process
    (the handler does not even depend on the collaborators).  The body the
    client reads back has the same four properties. *)
Theorem test_answers_fixed_body query w :
  answers (api_test query) w
    {| status := 200;
       body :=
         {[ "taskId" := Some (JStr "test-1116");
            "status" := Some (JStr "succeeded");
            "output_url" := Some (JStr "https://commondatastorage.googleapis.com/gtv-videos-bucket/sample/ForBiggerBlazes.mp4");
            "message" := Some (JStr "This is a test response") ]} |}
    w ∧
  JSON_stringify
    {[ "taskId" := Some (JStr "test-1116");
       "status" := Some (JStr "succeeded");
       "output_url" := Some (JStr "https://commondatastorage.googleapis.com/gtv-videos-bucket/sample/ForBiggerBlazes.mp4");
       "message" := Some (JStr "This is a test response") ]}
  = {[ "taskId" := JStr "test-1116";
       "status" := JStr "succeeded";
       "output_url" := JStr "https://commondatastorage.googleapis.com/gtv-videos-bucket/sample/ForBiggerBlazes.mp4";
       "message" := JStr "This is a test response" ]}.
Proof.
  split; [reflexivity|]. vm_compute. reflexivity.
Qed.

(** ** Relaying the status of a task *)

Lemma snapshot_output_url prediction : snapshot prediction !! "output_url" = None.
Proof. by vm_compute. Qed.

Lemma snapshot_error prediction : snapshot prediction !! "error" = None.
Proof. by vm_compute. Qed.

Section CheckStatus.
Context (env : Env) (query : gmap string json).
Context (key : string) (prediction : gmap string json).
Hypothesis Hvalid : truthy (query !! "taskId") = true.
Hypothesis Hsecret : accessSecretVersion env secret_path = Return key.
Hypothesis Hget : predictions_get env key (query !! "taskId") = Return prediction.

(** C2.  When the remote record has status ["succeeded"], the object that
    [/api/checkStatus] answers with has an [output_url] property holding the
    [output] of the record, so the client reads under [output_url] what the
    record has under [output]; the object has no [error] property, and
    neither has the body the client reads. *)
Theorem checkStatus_succeeded_has_output_url w :
  prediction !! "status" = Some (JStr "succeeded") →
  ∃ resp w',
    answers (api_checkStatus env query) w resp w' ∧
    status resp = 200 ∧
    body resp !! "output_url" = Some (prediction !! "output") ∧
    on_wire resp "output_url" = prediction !! "output" ∧
    body resp !! "error" = None ∧
    on_wire resp "error" = None.
Proof using Hvalid Hsecret Hget.
  intros Hstatus.
  assert (<["output_url" := prediction !! "output"]> (snapshot prediction)
            !! "error" = None) as Hno.
  { rewrite lookup_insert_ne; [apply snapshot_error | done]. }
  eexists _, _. split.
  { unfold answers. apply api_checkStatus_relays; [done|].
    by eapply checkVideoStatus_succeeded. }
  split; [done|]. split; [apply lookup_insert_eq|].
  split; [apply on_wire_has, lookup_insert_eq|].
  split; [exact Hno | by apply on_wire_lacks].
Qed.

(** C3.  When the remote record has status ["failed"], [/api/checkStatus]
    still answers HTTP 200; the object has an [error] property holding the
    [error] of the record, so the client reads under [error] what the record
    has under [error]; the object has no [output_url] property, and neither
    has the body the client reads. *)
Theorem checkStatus_failed_has_error w :
  prediction !! "status" = Some (JStr "failed") →
  ∃ resp w',
    answers (api_checkStatus env query) w resp w' ∧
    status resp = 200 ∧
    body resp !! "error" = Some (prediction !! "error") ∧
    on_wire resp "error" = prediction !! "error" ∧
    body resp !! "output_url" = None ∧
    on_wire resp "output_url" = None.
Proof using Hvalid Hsecret Hget.
  intros Hstatus.
  assert (<["error" := prediction !! "error"]> (snapshot prediction)
            !! "output_url" = None) as Hno.
  { rewrite lookup_insert_ne; [apply snapshot_output_url | done]. }
  eexists _, _. split.
  { unfold answers. apply api_checkStatus_relays; [done|].
    by eapply checkVideoStatus_failed. }
  split; [done|]. split; [apply lookup_insert_eq|].
  split; [apply on_wire_has, lookup_insert_eq|].
  split; [exact Hno | by apply on_wire_lacks].
Qed.

(** C4.  When the status of the remote record is neither ["succeeded"] nor
    ["failed"] (["processing"], ["starting"], anything else, or no status
    at all), the answer has neither an [output_url] nor an [error]
    property. *)
Theorem checkStatus_pending_has_neither w :
  prediction !! "status" ≠ Some (JStr "succeeded") →
  prediction !! "status" ≠ Some (JStr "failed") →
  ∃ resp w',
    answers (api_checkStatus env query) w resp w' ∧
    status resp = 200 ∧
    body resp !! "output_url" = None ∧
    on_wire resp "output_url" = None ∧
    body resp !! "error" = None ∧
    on_wire resp "error" = None.
Proof using Hvalid Hsecret Hget.
  intros Hs Hf.
  eexists _, _. split.
  { unfold answers. apply api_checkStatus_relays; [done|].
    by eapply checkVideoStatus_pending. }
  split; [done|].
  split; [apply snapshot_output_url|].
  split; [apply on_wire_lacks, snapshot_output_url|].
  split; [apply snapshot_error|].
  apply on_wire_lacks, snapshot_error.
Qed.

(** C10.  Whatever the remote record, the object that [/api/checkStatus]
    answers with has a [version] property holding the [version] of the
    record, next to [taskId], [status], [created_at], [started_at],
    [completed_at] and [model], each holding the property of the record it
    is read from; and the client reads under each of the seven names what the
    record has under the name it is read from. *)
Theorem checkStatus_relays_version w :
  ∃ resp w',
    answers (api_checkStatus env query) w resp w' ∧
    status resp = 200 ∧
    body resp !! "version" = Some (prediction !! "version") ∧
    on_wire resp "version" = prediction !! "version" ∧
    Forall (λ '(k, src),
              body resp !! k = Some (prediction !! src) ∧
              on_wire resp k = prediction !! src)
           relayed_fields.
Proof using Hvalid Hsecret Hget.
  destruct (checkVideoStatus_returns env (query !! "taskId") key prediction
              Hsecret Hget w) as (obj & Hrun & Hext).
  eexists {| status := 200; body := obj |}, _. split.
  { unfold answers. by apply api_checkStatus_relays. }
  assert (∀ k src, snapshot prediction !! k = Some (prediction !! src) →
            body {| status := 200; body := obj |} !! k = Some (prediction !! src) ∧
            on_wire {| status := 200; body := obj |} k = prediction !! src)
    as Hrelay.
  { intros k src Hk. apply Hext in Hk. split; [done | by apply on_wire_has]. }
  split; [done|].
  split; [by apply Hext|].
  split; [by apply on_wire_has, Hext|].
  unfold relayed_fields.
  repeat (constructor; [by apply Hrelay|]).
  constructor.
Qed.

End CheckStatus.

Lemma checkStatus_succeeded_has_output_url_witness :
  ∃ resp w',
    answers
      (api_checkStatus
         (Sample.env (Return Sample.key) (Throw Sample.unreachable)
            (Return (Sample.record "succeeded")))
         Sample.status_query) world0 resp w' ∧
    status resp = 200 ∧
    body resp !! "output_url" = Some (Sample.record "succeeded" !! "output") ∧
    on_wire resp "output_url" = Sample.record "succeeded" !! "output" ∧
    body resp !! "error" = None ∧
    on_wire resp "error" = None.
Proof.
  apply (checkStatus_succeeded_has_output_url
           (Sample.env (Return Sample.key) (Throw Sample.unreachable)
              (Return (Sample.record "succeeded")))
           Sample.status_query Sample.key (Sample.record "succeeded"));
    vm_compute; reflexivity.
Defined.

Lemma checkStatus_failed_has_error_witness :
  ∃ resp w',
    answers
      (api_checkStatus
         (Sample.env (Return Sample.key) (Throw Sample.unreachable)
            (Return (Sample.record "failed")))
         Sample.status_query) world0 resp w' ∧
    status resp = 200 ∧
    body resp !! "error" = Some (Sample.record "failed" !! "error") ∧
    on_wire resp "error" = Sample.record "failed" !! "error" ∧
    body resp !! "output_url" = None ∧
    on_wire resp "output_url" = None.
Proof.
  apply (checkStatus_failed_has_error
           (Sample.env (Return Sample.key) (Throw Sample.unreachable)
              (Return (Sample.record "failed")))
           Sample.status_query Sample.key (Sample.record "failed"));
    vm_compute; reflexivity.
Defined.

Lemma checkStatus_pending_has_neither_witness :
  ∃ resp w',
    answers
      (api_checkStatus
         (Sample.env (Return Sample.key) (Throw Sample.unreachable)
            (Return (Sample.record "processing")))
         Sample.status_query) world0 resp w' ∧
    status resp = 200 ∧
    body resp !! "output_url" = None ∧
    on_wire resp "output_url" = None ∧
    body resp !! "error" = None ∧
    on_wire resp "error" = None.
Proof.
  apply (checkStatus_pending_has_neither
           (Sample.env (Return Sample.key) (Throw Sample.unreachable)
              (Return (Sample.record "processing")))
           Sample.status_query Sample.key (Sample.record "processing"));
    vm_compute; first [reflexivity | discriminate].
Defined.

Lemma checkStatus_relays_version_witness :
  ∃ resp w',
    answers
      (api_checkStatus
         (Sample.env (Return Sample.key) (Throw Sample.unreachable)
            (Return (Sample.record "starting")))
         Sample.status_query) world0 resp w' ∧
    status resp = 200 ∧
    body resp !! "version" = Some (Sample.record "starting" !! "version") ∧
    on_wire resp "version" = Sample.record "starting" !! "version" ∧
    Forall (λ '(k, src),
              body resp !! k = Some (Sample.record "starting" !! src) ∧
              on_wire resp k = Sample.record "starting" !! src)
           relayed_fields.
Proof.
  apply (checkStatus_relays_version
           (Sample.env (Return Sample.key) (Throw Sample.unreachable)
              (Return (Sample.record "starting")))
           Sample.status_query Sample.key (Sample.record "starting"));
    vm_compute; reflexivity.
Defined.

(** ** What is sent to the remote API *)

(** A request that passes validation and for which the secret fetch returns
    a key makes exactly two calls: the secret fetch and one "create
    prediction" with that key. *)
Lemma api_createVideo_creates env query key w :
  truthy (query !! "prompt") = true →
  truthy (query !! "imageUrl") = true →
  accessSecretVersion env secret_path = Return key →
  outbound (api_createVideo env query w).2
    = (outbound w ++
       [AccessSecretVersion secret_path;
        PredictionsCreate key
          (create_request (query !! "prompt") (query !! "imageUrl")
             (query !! "resolution"))])%list.
Proof.
  intros Hp Hi Hsecret.
  destruct (predictions_create env key
              (create_request (query !! "prompt") (query !! "imageUrl")
                 (query !! "resolution")))
    as [prediction|error] eqn:Hcreate.
  - destruct (convertible (prediction !! "id")
              && convertible (prediction !! "status")) eqn:Hok.
    + erewrite api_createVideo_started; [|done..|].
      2: by eapply createVideoGeneration_returns. done.
    + erewrite api_createVideo_fails; [|done..|].
      2: by eapply createVideoGeneration_log_throws. done.
  - erewrite api_createVideo_fails; [|done..|].
    2: by eapply createVideoGeneration_create_throws. done.
Qed.

(** Every "create prediction" that leaves the process while
    [/api/createVideo] is served carries the argument object built from the
    query. *)
Lemma api_createVideo_create_args env query auth args :
  PredictionsCreate auth args ∈ outbound (api_createVideo env query world0).2 →
  args = create_request (query !! "prompt") (query !! "imageUrl")
           (query !! "resolution").
Proof.
  intros Hin.
  destruct (api_createVideo_outbound env query world0)
    as [Hout | [Hout | (key & _ & _ & _ & Hout)]];
    rewrite Hout in Hin; simpl in Hin.
  - by apply elem_of_nil in Hin.
  - apply list_elem_of_singleton in Hin. discriminate.
  - apply elem_of_cons in Hin as [Hin | Hin]; [discriminate|].
    apply list_elem_of_singleton in Hin. by injection Hin.
Qed.

(** C8.  Every "create prediction" made while [/api/createVideo] is served
    carries, as [resolution], the default ["480p"] when the query has no
    [resolution], and the value supplied by the query when it has one.  And
    the call is made: a request that passes validation and for which the
    secret fetch returns a key makes the secret fetch and then one "create
    prediction" with that key. *)
Theorem createVideo_forwards_resolution env query :
  (∀ auth args,
     PredictionsCreate auth args ∈ outbound (api_createVideo env query world0).2 →
     (query !! "resolution" = None →
      resolution (input args) = Some (JStr "480p")) ∧
     (∀ r, query !! "resolution" = Some r →
      resolution (input args) = Some r)) ∧
  (∀ key,
     truthy (query !! "prompt") = true →
     truthy (query !! "imageUrl") = true →
     accessSecretVersion env secret_path = Return key →
     ∃ args,
       outbound (api_createVideo env query world0).2 =
         [AccessSecretVersion secret_path; PredictionsCreate key args]).
Proof.
  split.
  - intros auth args Hin. apply api_createVideo_create_args in Hin as ->.
    simpl. split.
    + by intros ->.
    + by intros r ->.
  - intros key Hp Hi Hsecret. eexists.
    by rewrite (api_createVideo_creates env query key world0).
Qed.

Lemma createVideo_forwards_resolution_witness :
  (∃ args,
     outbound
       (api_createVideo
          (Sample.env (Return Sample.key) (Return (Sample.record "starting"))
             (Throw Sample.unreachable))
          Sample.create_query world0).2
       = [AccessSecretVersion secret_path; PredictionsCreate Sample.key args] ∧
     resolution (input args) = Some (JStr "480p")) ∧
  (∃ args,
     outbound
       (api_createVideo
          (Sample.env (Return Sample.key) (Return (Sample.record "starting"))
             (Throw Sample.unreachable))
          (<["resolution" := JStr "720p"]> Sample.create_query) world0).2
       = [AccessSecretVersion secret_path; PredictionsCreate Sample.key args] ∧
     resolution (input args) = Some (JStr "720p")).
Proof.
  split.
  - destruct (createVideo_forwards_resolution
                (Sample.env (Return Sample.key) (Return (Sample.record "starting"))
                   (Throw Sample.unreachable))
                Sample.create_query) as [Hres Hmade].
    destruct (Hmade Sample.key) as [args Hargs]; [vm_compute; reflexivity..|].
    exists args. split; [exact Hargs|].
    destruct (Hres Sample.key args) as [Habsent _].
    { rewrite Hargs. apply elem_of_cons. right. apply list_elem_of_singleton.
      reflexivity. }
    apply Habsent. vm_compute. reflexivity.
  - destruct (createVideo_forwards_resolution
                (Sample.env (Return Sample.key) (Return (Sample.record "starting"))
                   (Throw Sample.unreachable))
                (<["resolution" := JStr "720p"]> Sample.create_query))
      as [Hres Hmade].
    destruct (Hmade Sample.key) as [args Hargs]; [vm_compute; reflexivity..|].
    exists args. split; [exact Hargs|].
    destruct (Hres Sample.key args) as [_ Hsupplied].
    { rewrite Hargs. apply elem_of_cons. right. apply list_elem_of_singleton.
      reflexivity. }
    apply Hsupplied. vm_compute. reflexivity.
Defined.

(** C9.  Every "create prediction" made while [/api/createVideo] is served
    names the configured model ["bytedance/seedance-1-lite"], whatever the
    query and whatever the collaborators answer; so two requests, however
    they differ, name the same model.  And the call is made: a request that
    passes validation and for which the secret fetch returns a key makes the
    secret fetch and then one "create prediction" with that key. *)
Theorem createVideo_model_is_fixed env query :
  (∀ auth args,
     PredictionsCreate auth args ∈ outbound (api_createVideo env query world0).2 →
     model args = Some (JStr CONFIG.DEFAULT_MODEL) ∧
     model args = Some (JStr "bytedance/seedance-1-lite")) ∧
  (∀ key,
     truthy (query !! "prompt") = true →
     truthy (query !! "imageUrl") = true →
     accessSecretVersion env secret_path = Return key →
     ∃ args,
       outbound (api_createVideo env query world0).2 =
         [AccessSecretVersion secret_path; PredictionsCreate key args]).
Proof.
  split.
  - intros auth args Hin. by apply api_createVideo_create_args in Hin as ->.
  - intros key Hp Hi Hsecret. eexists.
    by rewrite (api_createVideo_creates env query key world0).
Qed.

Lemma createVideo_model_is_fixed_witness :
  ∃ args,
    outbound
      (api_createVideo
         (Sample.env (Return Sample.key) (Return (Sample.record "starting"))
            (Throw Sample.unreachable))
         (<["model" := JStr "another/model"]> Sample.create_query) world0).2
      = [AccessSecretVersion secret_path; PredictionsCreate Sample.key args] ∧
    model args = Some (JStr "bytedance/seedance-1-lite").
Proof.
  destruct (createVideo_model_is_fixed
              (Sample.env (Return Sample.key) (Return (Sample.record "starting"))
                 (Throw Sample.unreachable))
              (<["model" := JStr "another/model"]> Sample.create_query))
    as [Hmodel Hmade].
  destruct (Hmade Sample.key) as [args Hargs]; [vm_compute; reflexivity..|].
  exists args. split; [exact Hargs|].
  apply (Hmodel Sample.key args).
  rewrite Hargs. apply elem_of_cons. right. apply list_elem_of_singleton.
  reflexivity.
Defined.

(** * Further properties *)

(** ** Every way a request can go *)

Lemma caught_cannot_convert text :
  caught text cannot_convert =
    Return {| status := 500;
              body := {[ "error" := Some (JStr text);
                         "details" :=
                           Some (JStr "Cannot convert object to primitive value") ]} |}.
Proof.
  apply caught_message. eexists. split; [reflexivity|]. by vm_compute.
Qed.

(** [/api/createVideo]: the request is rejected, or the secret fetch throws,
    or "create prediction" throws, or the log line throws, or everything
    returns. *)
Lemma api_createVideo_cases env query w :
  ((truthy (query !! "prompt") = false ∨ truthy (query !! "imageUrl") = false) ∧
   api_createVideo env query w =
     (Return {| status := 400;
                body := {[ "error" :=
                  Some (JStr "Missing required parameters: prompt and imageUrl") ]} |},
      w)) ∨
  (truthy (query !! "prompt") = true ∧ truthy (query !! "imageUrl") = true ∧
   ((∃ error,
       accessSecretVersion env secret_path = Throw error ∧
       api_createVideo env query w =
         (caught "Failed to create video generation task" error,
          logged [ConsoleError "Error creating video generation:" error;
                  ConsoleError "Error in /api/createVideo:" error]
            (sent [AccessSecretVersion secret_path] w))) ∨
    (∃ key error,
       accessSecretVersion env secret_path = Return key ∧
       predictions_create env key
         (create_request (query !! "prompt") (query !! "imageUrl")
            (query !! "resolution")) = Throw error ∧
       api_createVideo env query w =
         (caught "Failed to create video generation task" error,
          logged [ConsoleError "Error creating video generation:" error;
                  ConsoleError "Error in /api/createVideo:" error]
            (sent [AccessSecretVersion secret_path;
                   PredictionsCreate key
                     (create_request (query !! "prompt") (query !! "imageUrl")
                        (query !! "resolution"))] w))) ∨
    (∃ key prediction,
       accessSecretVersion env secret_path = Return key ∧
       predictions_create env key
         (create_request (query !! "prompt") (query !! "imageUrl")
            (query !! "resolution")) = Return prediction ∧
       convertible (prediction !! "id") && convertible (prediction !! "status")
         = false ∧
       api_createVideo env query w =
         (Return {| status := 500;
                    body := {[ "error" := Some (JStr "Failed to create video generation task");
                               "details" :=
                                 Some (JStr "Cannot convert object to primitive value") ]} |},
          logged [ConsoleError "Error creating video generation:" cannot_convert;
                  ConsoleError "Error in /api/createVideo:" cannot_convert]
            (sent [AccessSecretVersion secret_path;
                   PredictionsCreate key
                     (create_request (query !! "prompt") (query !! "imageUrl")
                        (query !! "resolution"))] w))) ∨
    (∃ key prediction,
       accessSecretVersion env secret_path = Return key ∧
       predictions_create env key
         (create_request (query !! "prompt") (query !! "imageUrl")
            (query !! "resolution")) = Return prediction ∧
       convertible (prediction !! "id") && convertible (prediction !! "status")
         = true ∧
       api_createVideo env query w =
         (Return {| status := 200;
                    body := {[ "taskId" := prediction !! "id";
                               "status" := Some (JStr "started");
                               "message" :=
                                 Some (JStr "Video generation task created successfully") ]} |},
          logged [ConsoleLog "Prediction created: ${prediction.id}, Status: ${prediction.status}"
                             [prediction !! "id"; prediction !! "status"]]
            (sent [AccessSecretVersion secret_path;
                   PredictionsCreate key
                     (create_request (query !! "prompt") (query !! "imageUrl")
                        (query !! "resolution"))] w))))).
Proof.
  destruct (truthy (query !! "prompt")) eqn:Hp;
    [|left; split; [by left | apply api_createVideo_rejects; by left]].
  destruct (truthy (query !! "imageUrl")) eqn:Hi;
    [|left; split; [by right | apply api_createVideo_rejects; by right]].
  right. split; [done|]. split; [done|].
  destruct (accessSecretVersion env secret_path) as [key|error] eqn:Hsecret.
  - destruct (predictions_create env key
                (create_request (query !! "prompt") (query !! "imageUrl")
                   (query !! "resolution")))
      as [prediction|error] eqn:Hcreate.
    + destruct (convertible (prediction !! "id")
                && convertible (prediction !! "status")) eqn:Hok.
      * do 3 right. exists key, prediction. split_and!; [done..|].
        apply api_createVideo_started; [done..|].
        by eapply createVideoGeneration_returns.
      * right; right; left. exists key, prediction. split_and!; [done..|].
        erewrite api_createVideo_fails; [|done..|].
        2: by eapply createVideoGeneration_log_throws.
        by rewrite logged_logged, caught_cannot_convert.
    + right; left. exists key, error. split_and!; [done..|].
      erewrite api_createVideo_fails; [|done..|].
      2: by eapply createVideoGeneration_create_throws.
      by rewrite logged_logged.
  - left. exists error. split; [done|].
    erewrite api_createVideo_fails; [|done..|].
    2: by eapply createVideoGeneration_secret_throws.
    by rewrite logged_logged.
Qed.

(** [/api/checkStatus]: the request is rejected, or the secret fetch throws,
    or "get prediction" throws, or a record comes back and is relayed. *)
Lemma api_checkStatus_cases env query w :
  (truthy (query !! "taskId") = false ∧
   api_checkStatus env query w =
     (Return {| status := 400;
                body := {[ "error" :=
                  Some (JStr "Missing required parameter: taskId") ]} |},
      w)) ∨
  (truthy (query !! "taskId") = true ∧
   ((∃ error,
       accessSecretVersion env secret_path = Throw error ∧
       api_checkStatus env query w =
         (caught "Failed to check video status" error,
          logged [ConsoleError "Error checking video status:" error;
                  ConsoleError "Error in /api/checkStatus:" error]
            (sent [AccessSecretVersion secret_path] w))) ∨
    (∃ key error,
       accessSecretVersion env secret_path = Return key ∧
       predictions_get env key (query !! "taskId") = Throw error ∧
       api_checkStatus env query w =
         (caught "Failed to check video status" error,
          logged [ConsoleError "Error checking video status:" error;
                  ConsoleError "Error in /api/checkStatus:" error]
            (sent [AccessSecretVersion secret_path;
                   PredictionsGet key (query !! "taskId")] w))) ∨
    (∃ key prediction obj,
       accessSecretVersion env secret_path = Return key ∧
       predictions_get env key (query !! "taskId") = Return prediction ∧
       (obj = <["output_url" := prediction !! "output"]> (snapshot prediction) ∧
          prediction !! "status" = Some (JStr "succeeded") ∨
        obj = <["error" := prediction !! "error"]> (snapshot prediction) ∧
          prediction !! "status" = Some (JStr "failed") ∨
        obj = snapshot prediction ∧
          prediction !! "status" ≠ Some (JStr "succeeded") ∧
          prediction !! "status" ≠ Some (JStr "failed")) ∧
       api_checkStatus env query w =
         (Return {| status := 200; body := obj |},
          sent [AccessSecretVersion secret_path;
                PredictionsGet key (query !! "taskId")] w)))).
Proof.
  destruct (truthy (query !! "taskId")) eqn:Ht;
    [|left; split; [done | by apply api_checkStatus_rejects]].
  right. split; [done|].
  destruct (accessSecretVersion env secret_path) as [key|error] eqn:Hsecret.
  - destruct (predictions_get env key (query !! "taskId"))
      as [prediction|error] eqn:Hget.
    + right; right. exists key, prediction.
      destruct (strict_eq_str (prediction !! "status") "succeeded") eqn:Hs.
      { apply strict_eq_str_true in Hs. eexists. split; [done|]. split; [done|].
        split; [by left|]. apply api_checkStatus_relays; [done|].
        by eapply checkVideoStatus_succeeded. }
      destruct (strict_eq_str (prediction !! "status") "failed") eqn:Hf.
      { apply strict_eq_str_true in Hf. eexists. split; [done|]. split; [done|].
        split; [by right; left|]. apply api_checkStatus_relays; [done|].
        by eapply checkVideoStatus_failed. }
      apply strict_eq_str_false in Hs, Hf.
      eexists. split; [done|]. split; [done|].
      split; [by right; right|]. apply api_checkStatus_relays; [done|].
      by eapply checkVideoStatus_pending.
    + right; left. exists key, error. split; [done|]. split; [done|].
      erewrite api_checkStatus_fails; [|done|].
      2: by eapply checkVideoStatus_get_throws.
      by rewrite logged_logged.
  - left. exists error. split; [done|].
    erewrite api_checkStatus_fails; [|done|].
    2: by eapply checkVideoStatus_secret_throws.
    by rewrite logged_logged.
Qed.

(** ** The status code *)



(** ** The calls that leave the process *)

(** X3.  While [/api/createVideo] is served, the calls that leave the
    process are settled by the query and the secret store.  A request that
    is rejected makes none.  A request that passes validation makes the
    secret fetch alone when this throws, and otherwise the secret fetch
    followed by exactly one "create prediction", authenticated with the key
    that the store returned and carrying [prompt] and [imageUrl] as the
    query has them.  There is no second attempt, and "get prediction" is
    never called. *)
Theorem createVideo_call_sequence env query w :
  ∃ cs,
    outbound (api_createVideo env query w).2 = (outbound w ++ cs)%list ∧
    ((truthy (query !! "prompt") = false ∨ truthy (query !! "imageUrl") = false) ∧
       cs = [] ∨
     truthy (query !! "prompt") = true ∧ truthy (query !! "imageUrl") = true ∧
       (∃ error, accessSecretVersion env secret_path = Throw error) ∧
       cs = [AccessSecretVersion secret_path] ∨
     truthy (query !! "prompt") = true ∧ truthy (query !! "imageUrl") = true ∧
       ∃ key args,
         accessSecretVersion env secret_path = Return key ∧
         cs = [AccessSecretVersion secret_path; PredictionsCreate key args] ∧
         prompt (input args) = query !! "prompt" ∧
         image (input args) = query !! "imageUrl").
Proof.
  destruct (api_createVideo_cases env query w)
    as [[Hfalsy Hrun] | (Hp & Hi & [(error & Hsecret & Hrun)
         | [(key & error & Hsecret & Hcreate & Hrun)
           | [(key & prediction & Hsecret & Hcreate & Hok & Hrun)
             | (key & prediction & Hsecret & Hcreate & Hok & Hrun)]]])];
    rewrite Hrun; cbn [snd outbound logged sent].
  - exists []. split; [by rewrite (right_id_L [] (++))|]. by left.
  - eexists. split; [done|]. right; left. split_and!; [done..| |done].
    by exists error.
  - eexists. split; [done|]. right; right. split_and!; [done..|].
    by eexists key, _.
  - eexists. split; [done|]. right; right. split_and!; [done..|].
    by eexists key, _.
  - eexists. split; [done|]. right; right. split_and!; [done..|].
    by eexists key, _.
Qed.

(** X4.  While [/api/checkStatus] is served, the calls that leave the
    process are settled by the query and the secret store.  A request that
    is rejected makes none.  A request that passes validation makes the
    secret fetch alone when this throws, and otherwise the secret fetch
    followed by exactly one "get prediction", authenticated with the key
    that the store returned and asking for [taskId] as the query has it.
    There is no second attempt, and "create prediction" is never called. *)
Theorem checkStatus_call_sequence env query w :
  ∃ cs,
    outbound (api_checkStatus env query w).2 = (outbound w ++ cs)%list ∧
    (truthy (query !! "taskId") = false ∧ cs = [] ∨
     truthy (query !! "taskId") = true ∧
       (∃ error, accessSecretVersion env secret_path = Throw error) ∧
       cs = [AccessSecretVersion secret_path] ∨
     truthy (query !! "taskId") = true ∧
       ∃ key,
         accessSecretVersion env secret_path = Return key ∧
         cs = [AccessSecretVersion secret_path;
               PredictionsGet key (query !! "taskId")]).
Proof.
  destruct (api_checkStatus_cases env query w)
    as [[Hfalsy Hrun] | (Ht & [(error & Hsecret & Hrun)
         | [(key & error & Hsecret & Hget & Hrun)
           | (key & prediction & obj & Hsecret & Hget & _ & Hrun)]])];
    rewrite Hrun; cbn [snd outbound logged sent].
  - exists []. split; [by rewrite (right_id_L [] (++))|]. by left.
  - eexists. split; [done|]. right; left. split_and!; [done| |done].
    by exists error.
  - eexists. split; [done|]. right; right. split; [done|]. by exists key.
  - eexists. split; [done|]. right; right. split; [done|]. by exists key.
Qed.

(** ** What is written to the console *)

(** X5.  A request that passes validation and during which the secret fetch
    or the remote call throws writes two lines to the error console, in
    this order: the one of the function that made the call, then the one of
    the route, both with the error as it was thrown.  This holds for
    [/api/createVideo] and for [/api/checkStatus]. *)
Theorem upstream_failure_is_logged_twice env query error w :
  (truthy (query !! "prompt") = true →
   truthy (query !! "imageUrl") = true →
   upstream_throws env
     (λ key, predictions_create env key
        (create_request (query !! "prompt") (query !! "imageUrl")
           (query !! "resolution"))) error →
   console (api_createVideo env query w).2 =
     (console w ++
      [ConsoleError "Error creating video generation:" error;
       ConsoleError "Error in /api/createVideo:" error])%list) ∧
  (truthy (query !! "taskId") = true →
   upstream_throws env
     (λ key, predictions_get env key (query !! "taskId")) error →
   console (api_checkStatus env query w).2 =
     (console w ++
      [ConsoleError "Error checking video status:" error;
       ConsoleError "Error in /api/checkStatus:" error])%list).
Proof.
  split.
  - intros Hp Hi Hup.
    destruct (api_createVideo_cases env query w)
      as [[Hfalsy _] | (_ & _ & [(error' & Hsecret & Hrun)
           | [(key & error' & Hsecret & Hcreate & Hrun)
             | [(key & prediction & Hsecret & Hcreate & _ & Hrun)
               | (key & prediction & Hsecret & Hcreate & _ & Hrun)]]])].
    + destruct Hfalsy; congruence.
    + rewrite Hrun. destruct Hup as [? | (key & ? & _)]; [|congruence].
      by replace error' with error by congruence.
    + rewrite Hrun. destruct Hup as [? | (key' & ? & ?)]; [congruence|].
      by replace error' with error by congruence.
    + destruct Hup as [? | (key' & ? & ?)]; congruence.
    + destruct Hup as [? | (key' & ? & ?)]; congruence.
  - intros Ht Hup.
    destruct (api_checkStatus_cases env query w)
      as [[Hfalsy _] | (_ & [(error' & Hsecret & Hrun)
           | [(key & error' & Hsecret & Hget & Hrun)
             | (key & prediction & obj & Hsecret & Hget & _ & Hrun)]])].
    + congruence.
    + rewrite Hrun. destruct Hup as [? | (key & ? & _)]; [|congruence].
      by replace error' with error by congruence.
    + rewrite Hrun. destruct Hup as [? | (key' & ? & ?)]; [congruence|].
      by replace error' with error by congruence.
    + destruct Hup as [? | (key' & ? & ?)]; congruence.
Qed.

Lemma upstream_failure_is_logged_twice_witness :
  console
    (api_createVideo
       (Sample.env (Throw Sample.no_secret) (Return (Sample.record "starting"))
          (Return (Sample.record "processing")))
       Sample.create_query world0).2
  = [ConsoleError "Error creating video generation:" Sample.no_secret;
     ConsoleError "Error in /api/createVideo:" Sample.no_secret] ∧
  console
    (api_checkStatus
       (Sample.env (Return Sample.key) (Return (Sample.record "starting"))
          (Throw Sample.no_task))
       Sample.status_query world0).2
  = [ConsoleError "Error checking video status:" Sample.no_task;
     ConsoleError "Error in /api/checkStatus:" Sample.no_task].
Proof.
  split.
  - apply (upstream_failure_is_logged_twice
             (Sample.env (Throw Sample.no_secret) (Return (Sample.record "starting"))
                (Return (Sample.record "processing")))
             Sample.create_query Sample.no_secret world0);
      [vm_compute; reflexivity..|]. left. reflexivity.
  - apply (upstream_failure_is_logged_twice
             (Sample.env (Return Sample.key) (Return (Sample.record "starting"))
                (Throw Sample.no_task))
             Sample.status_query Sample.no_task world0);
      [vm_compute; reflexivity|]. right. exists Sample.key. split; reflexivity.
Defined.

(** ** The shape of a relayed status *)

Lemma on_wire_is_Some resp k :
  is_Some (on_wire resp k) → is_Some (body resp !! k).
Proof.
  unfold on_wire. rewrite JSON_stringify_lookup.
  destruct (body resp !! k); [by eexists | by intros [? ?]].
Qed.

Lemma snapshot_nothing_else prediction k :
  k ∉ status_properties → snapshot prediction !! k = None.
Proof.
  unfold status_properties, snapshot. rewrite !not_elem_of_cons.
  intros (? & ? & ? & ? & ? & ? & ? & _).
  rewrite !lookup_insert_ne by done. by apply lookup_singleton_ne.
Qed.

Section RelayedStatus.
Context (env : Env) (query : gmap string json).
Context (key : string) (prediction : gmap string json).
Hypothesis Hvalid : truthy (query !! "taskId") = true.
Hypothesis Hsecret : accessSecretVersion env secret_path = Return key.
Hypothesis Hget : predictions_get env key (query !! "taskId") = Return prediction.

(** What [/api/checkStatus] answers once the record is there. *)
Lemma api_checkStatus_relayed w :
  ∃ obj,
    api_checkStatus env query w =
      (Return {| status := 200; body := obj |},
       sent [AccessSecretVersion secret_path;
             PredictionsGet key (query !! "taskId")] w) ∧
    (obj = <["output_url" := prediction !! "output"]> (snapshot prediction) ∧
       prediction !! "status" = Some (JStr "succeeded") ∨
     obj = <["error" := prediction !! "error"]> (snapshot prediction) ∧
       prediction !! "status" = Some (JStr "failed") ∨
     obj = snapshot prediction ∧
       prediction !! "status" ≠ Some (JStr "succeeded") ∧
       prediction !! "status" ≠ Some (JStr "failed")).
Proof using Hvalid Hsecret Hget.
  destruct (api_checkStatus_cases env query w)
    as [[Hfalsy _] | (_ & [(error & Hthrow & _)
         | [(key' & error & Hkey & Hthrow & _)
           | (key' & prediction' & obj & Hkey & Hrecord & Hobj & Hrun)]])];
    [congruence..|].
  assert (key' = key) as -> by congruence.
  assert (prediction' = prediction) as -> by congruence.
  by exists obj.
Qed.

(** X6.  In the answer built from a remote record, the object has an
    [output_url] property exactly when the status of the record is
    ["succeeded"], and an [error] property exactly when it is ["failed"];
    it never has both.  So a client that reads [output_url] or [error] in
    the body knows the status of the task. *)
Theorem checkStatus_conditional_properties w :
  ∃ resp w',
    answers (api_checkStatus env query) w resp w' ∧
    (is_Some (body resp !! "output_url") ↔
       prediction !! "status" = Some (JStr "succeeded")) ∧
    (is_Some (body resp !! "error") ↔
       prediction !! "status" = Some (JStr "failed")) ∧
    (is_Some (on_wire resp "output_url") →
       prediction !! "status" = Some (JStr "succeeded")) ∧
    (is_Some (on_wire resp "error") →
       prediction !! "status" = Some (JStr "failed")) ∧
    ¬ (is_Some (body resp !! "output_url") ∧ is_Some (body resp !! "error")).
Proof using Hvalid Hsecret Hget.
  destruct (api_checkStatus_relayed w) as (obj & Hrun & Hobj).
  exists {| status := 200; body := obj |}. eexists. split; [exact Hrun|].
  assert ((is_Some (obj !! "output_url") ↔
             prediction !! "status" = Some (JStr "succeeded")) ∧
          (is_Some (obj !! "error") ↔
             prediction !! "status" = Some (JStr "failed"))) as [Hout Herr].
  { destruct Hobj as [[-> Hs] | [[-> Hf] | (-> & Hs & Hf)]].
    - rewrite lookup_insert_eq, lookup_insert_ne, snapshot_error by done.
      rewrite Hs. split; split; first [done | by eexists | by intros [? ?]].
    - rewrite lookup_insert_eq, lookup_insert_ne, snapshot_output_url by done.
      rewrite Hf. split; split; first [done | by eexists | by intros [? ?]].
    - rewrite snapshot_error, snapshot_output_url.
      split; split; first [done | by eexists | by intros [? ?]]. }
  split; [exact Hout|]. split; [exact Herr|].
  split; [intros H%on_wire_is_Some; by apply Hout|].
  split; [intros H%on_wire_is_Some; by apply Herr|].
  intros [H1%Hout H2%Herr]. congruence.
Qed.

(** X7.  The answer built from a remote record has no property besides
    [taskId], [status], [created_at], [started_at], [completed_at],
    [model], [version], [output_url] and [error]: whatever else the record
    carries (its input, its logs, its links) is not passed on. *)
Theorem checkStatus_relays_nothing_else w :
  ∃ resp w',
    answers (api_checkStatus env query) w resp w' ∧
    ∀ k, k ∉ status_properties →
      body resp !! k = None ∧ on_wire resp k = None.
Proof using Hvalid Hsecret Hget.
  destruct (api_checkStatus_relayed w) as (obj & Hrun & Hobj).
  exists {| status := 200; body := obj |}. eexists. split; [exact Hrun|].
  intros k Hk.
  assert (obj !! k = None) as Hnone.
  { pose proof (snapshot_nothing_else prediction k Hk) as Hsnap.
    unfold status_properties in Hk. rewrite !not_elem_of_cons in Hk.
    destruct Hk as (_ & _ & _ & _ & _ & _ & _ & ? & ? & _).
    destruct Hobj as [[-> _] | [[-> _] | (-> & _)]];
      by rewrite ?lookup_insert_ne. }
  split; [done | by apply on_wire_lacks].
Qed.

End RelayedStatus.

Lemma checkStatus_conditional_properties_witness :
  ∃ resp w',
    answers
      (api_checkStatus
         (Sample.env (Return Sample.key) (Throw Sample.unreachable)
            (Return (Sample.record "failed")))
         Sample.status_query) world0 resp w' ∧
    (is_Some (body resp !! "output_url") ↔
       Sample.record "failed" !! "status" = Some (JStr "succeeded")) ∧
    (is_Some (body resp !! "error") ↔
       Sample.record "failed" !! "status" = Some (JStr "failed")) ∧
    (is_Some (on_wire resp "output_url") →
       Sample.record "failed" !! "status" = Some (JStr "succeeded")) ∧
    (is_Some (on_wire resp "error") →
       Sample.record "failed" !! "status" = Some (JStr "failed")) ∧
    ¬ (is_Some (body resp !! "output_url") ∧ is_Some (body resp !! "error")).
Proof.
  apply (checkStatus_conditional_properties
           (Sample.env (Return Sample.key) (Throw Sample.unreachable)
              (Return (Sample.record "failed")))
           Sample.status_query Sample.key (Sample.record "failed"));
    vm_compute; reflexivity.
Defined.

Lemma checkStatus_relays_nothing_else_witness :
  ∃ resp w',
    answers
      (api_checkStatus
         (Sample.env (Return Sample.key) (Throw Sample.unreachable)
            (Return (<["logs" := JStr "Using seed 4242"]> (Sample.record "succeeded"))))
         Sample.status_query) world0 resp w' ∧
    ∀ k, k ∉ status_properties →
      body resp !! k = None ∧ on_wire resp k = None.
Proof.
  apply (checkStatus_relays_nothing_else
           (Sample.env (Return Sample.key) (Throw Sample.unreachable)
              (Return (<["logs" := JStr "Using seed 4242"]> (Sample.record "succeeded"))))
           Sample.status_query Sample.key
           (<["logs" := JStr "Using seed 4242"]> (Sample.record "succeeded")));
    vm_compute; reflexivity.
Defined.

(** ** Creating a task, then asking for its status *)

(** X8.  A task created through [/api/createVideo] can be followed with the
    [taskId] that was answered: when the identifier assigned by the remote
    API passes the test [!x], the record can be written into the log line
    and the next request carries the identifier as [taskId],
    [/api/checkStatus] asks the remote API for that very identifier and
    relays the record that comes back.  The secret is fetched again for the
    second request: nothing is kept from the first. *)
Theorem create_then_check env1 env2 query1 query2 key1 key2 created t fetched :
  truthy (query1 !! "prompt") = true →
  truthy (query1 !! "imageUrl") = true →
  accessSecretVersion env1 secret_path = Return key1 →
  predictions_create env1 key1
    (create_request (query1 !! "prompt") (query1 !! "imageUrl")
       (query1 !! "resolution")) = Return created →
  created !! "id" = Some t →
  convertible (Some t) = true →
  convertible (created !! "status") = true →
  truthy (Some t) = true →
  query2 !! "taskId" = Some t →
  accessSecretVersion env2 secret_path = Return key2 →
  predictions_get env2 key2 (Some t) = Return fetched →
  ∃ resp1 w1 resp2 w2,
    answers (api_createVideo env1 query1) world0 resp1 w1 ∧
    on_wire resp1 "taskId" = Some t ∧
    answers (api_checkStatus env2 query2) w1 resp2 w2 ∧
    status resp2 = 200 ∧
    on_wire resp2 "taskId" = fetched !! "id" ∧
    on_wire resp2 "status" = fetched !! "status" ∧
    outbound w2 =
      [AccessSecretVersion secret_path;
       PredictionsCreate key1
         (create_request (query1 !! "prompt") (query1 !! "imageUrl")
            (query1 !! "resolution"));
       AccessSecretVersion secret_path;
       PredictionsGet key2 (Some t)].
Proof.
  intros Hp Hi Hsecret1 Hcreate Hid Hconv Hstatus Ht Hquery Hsecret2 Hget.
  rewrite <- Hquery in Ht, Hget.
  eexists _, _.
  destruct (checkVideoStatus_returns env2 (query2 !! "taskId") key2 fetched
              Hsecret2 Hget
              (logged [ConsoleLog "Prediction created: ${prediction.id}, Status: ${prediction.status}"
                                  [created !! "id"; created !! "status"]]
                 (sent [AccessSecretVersion secret_path;
                        PredictionsCreate key1
                          (create_request (query1 !! "prompt") (query1 !! "imageUrl")
                             (query1 !! "resolution"))] world0)))
    as (obj & Hrun & Hext).
  exists {| status := 200; body := obj |}. eexists.
  split.
  { unfold answers. apply api_createVideo_started; [done..|].
    eapply createVideoGeneration_returns; [done..|].
    by rewrite Hid, Hconv, Hstatus. }
  split; [by apply on_wire_has; rewrite <- Hid|].
  split; [unfold answers; by apply api_checkStatus_relays|].
  split; [done|].
  split; [by apply on_wire_has, Hext|].
  split; [by apply on_wire_has, Hext|].
  by rewrite Hquery.
Qed.

Lemma create_then_check_witness :
  ∃ resp1 w1 resp2 w2,
    answers
      (api_createVideo
         (Sample.env (Return Sample.key) (Return (Sample.record "starting"))
            (Throw Sample.no_task))
         Sample.create_query) world0 resp1 w1 ∧
    on_wire resp1 "taskId" = Some (JStr "abc123xyz") ∧
    answers
      (api_checkStatus
         (Sample.env (Return "r8_4567") (Throw Sample.unreachable)
            (Return (Sample.record "processing")))
         Sample.status_query) w1 resp2 w2 ∧
    status resp2 = 200 ∧
    on_wire resp2 "taskId" = Sample.record "processing" !! "id" ∧
    on_wire resp2 "status" = Sample.record "processing" !! "status" ∧
    outbound w2 =
      [AccessSecretVersion secret_path;
       PredictionsCreate Sample.key
         (create_request (Sample.create_query !! "prompt")
            (Sample.create_query !! "imageUrl")
            (Sample.create_query !! "resolution"));
       AccessSecretVersion secret_path;
       PredictionsGet "r8_4567" (Some (JStr "abc123xyz"))].
Proof.
  apply (create_then_check
           (Sample.env (Return Sample.key) (Return (Sample.record "starting"))
              (Throw Sample.no_task))
           (Sample.env (Return "r8_4567") (Throw Sample.unreachable)
              (Return (Sample.record "processing")))
           Sample.create_query Sample.status_query Sample.key "r8_4567"
           (Sample.record "starting") (JStr "abc123xyz")
           (Sample.record "processing"));
    vm_compute; reflexivity.
Defined.

(** ** Validation looks at presence only *)

(** X9.  The test [!x] does not look at the type of a parameter.  A
    [prompt] that the query parser delivers as an array or as a nested
    object (from [prompt[]=...] or [prompt[k]=...]) passes it whatever it
    contains, and so does such an [imageUrl]; with the other parameter
    passing the test as well, both are handed to the remote API as they
    are.  So is a [taskId] that is an array or an object. *)
Theorem structured_parameters_are_forwarded env query key w :
  accessSecretVersion env secret_path = Return key →
  (structured (query !! "prompt") →
   truthy (query !! "imageUrl") = true →
   ∃ args,
     outbound (api_createVideo env query w).2 =
       (outbound w ++
        [AccessSecretVersion secret_path; PredictionsCreate key args])%list ∧
     prompt (input args) = query !! "prompt" ∧
     image (input args) = query !! "imageUrl") ∧
  (truthy (query !! "prompt") = true →
   structured (query !! "imageUrl") →
   ∃ args,
     outbound (api_createVideo env query w).2 =
       (outbound w ++
        [AccessSecretVersion secret_path; PredictionsCreate key args])%list ∧
     prompt (input args) = query !! "prompt" ∧
     image (input args) = query !! "imageUrl") ∧
  (structured (query !! "taskId") →
   outbound (api_checkStatus env query w).2 =
     (outbound w ++
      [AccessSecretVersion secret_path;
       PredictionsGet key (query !! "taskId")])%list).
Proof.
  assert (∀ v, structured v → truthy v = true) as Htruthy
    by by intros [[| | | | |]|].
  intros Hsecret. split_and!.
  - intros Hp%Htruthy Hi. eexists. split.
    + by apply api_createVideo_creates.
    + done.
  - intros Hp Hi%Htruthy. eexists. split.
    + by apply api_createVideo_creates.
    + done.
  - intros Ht%Htruthy.
    destruct (api_checkStatus_cases env query w)
      as [[Hfalsy _] | (_ & [(error & Hthrow & _)
           | [(key' & error & Hkey & _ & Hrun)
             | (key' & prediction & obj & Hkey & _ & _ & Hrun)]])];
      [congruence..| |]; rewrite Hrun; cbn [snd outbound logged sent];
      by replace key' with key by congruence.
Qed.

Lemma structured_parameters_are_forwarded_witness :
  (∃ args,
     outbound
       (api_createVideo
          (Sample.env (Return Sample.key) (Return (Sample.record "starting"))
             (Throw Sample.no_task))
          {[ "prompt" := JArr [JStr "a"; JStr "b"];
             "imageUrl" := JStr "https://example.com/image.jpg" ]} world0).2
       = [AccessSecretVersion secret_path; PredictionsCreate Sample.key args] ∧
     prompt (input args) = Some (JArr [JStr "a"; JStr "b"]) ∧
     image (input args) = Some (JStr "https://example.com/image.jpg")) ∧
  (∃ args,
     outbound
       (api_createVideo
          (Sample.env (Return Sample.key) (Return (Sample.record "starting"))
             (Throw Sample.no_task))
          {[ "prompt" := JStr "Make it animated";
             "imageUrl" := JObj {[ "k" := JStr "v" ]} ]} world0).2
       = [AccessSecretVersion secret_path; PredictionsCreate Sample.key args] ∧
     prompt (input args) = Some (JStr "Make it animated") ∧
     image (input args) = Some (JObj {[ "k" := JStr "v" ]})) ∧
  outbound
    (api_checkStatus
       (Sample.env (Return Sample.key) (Return (Sample.record "starting"))
          (Throw Sample.no_task))
       {[ "taskId" := JArr [JStr "abc123xyz"; JStr "other"] ]} world0).2
    = [AccessSecretVersion secret_path;
       PredictionsGet Sample.key (Some (JArr [JStr "abc123xyz"; JStr "other"]))].
Proof.
  split_and!.
  - destruct (structured_parameters_are_forwarded
                (Sample.env (Return Sample.key) (Return (Sample.record "starting"))
                   (Throw Sample.no_task))
                {[ "prompt" := JArr [JStr "a"; JStr "b"];
                   "imageUrl" := JStr "https://example.com/image.jpg" ]}
                Sample.key world0)
      as (Hprompt & _ & _); [reflexivity|].
    destruct Hprompt as (args & Hout & Hp & Hi);
      [vm_compute; exact I | vm_compute; reflexivity |].
    exists args. split; [exact Hout|]. split; [exact Hp | exact Hi].
  - destruct (structured_parameters_are_forwarded
                (Sample.env (Return Sample.key) (Return (Sample.record "starting"))
                   (Throw Sample.no_task))
                {[ "prompt" := JStr "Make it animated";
                   "imageUrl" := JObj {[ "k" := JStr "v" ]} ]}
                Sample.key world0)
      as (_ & Himage & _); [reflexivity|].
    destruct Himage as (args & Hout & Hp & Hi);
      [vm_compute; reflexivity | vm_compute; exact I |].
    exists args. split; [exact Hout|]. split; [exact Hp | exact Hi].
  - destruct (structured_parameters_are_forwarded
                (Sample.env (Return Sample.key) (Return (Sample.record "starting"))
                   (Throw Sample.no_task))
                {[ "taskId" := JArr [JStr "abc123xyz"; JStr "other"] ]}
                Sample.key world0)
      as (_ & _ & Hget); [reflexivity|].
    apply Hget. vm_compute. exact I.
Defined.

(** ** The record that "create prediction" returns *)

(** X10.  [/api/createVideo] does not check that the record returned by
    "create prediction" has an identifier.  When the [id] and the [status]
    of the record can be written into the log line, the body that the
    client reads has [status] and [message], and has [taskId] only when the
    record has an [id]: without one the answer is still HTTP 200 with status
    ["started"], and carries no [taskId]. *)
Theorem createVideo_body_on_the_wire env query key created w :
  truthy (query !! "prompt") = true →
  truthy (query !! "imageUrl") = true →
  accessSecretVersion env secret_path = Return key →
  predictions_create env key
    (create_request (query !! "prompt") (query !! "imageUrl")
       (query !! "resolution")) = Return created →
  convertible (created !! "id") = true →
  convertible (created !! "status") = true →
  ∃ resp w',
    answers (api_createVideo env query) w resp w' ∧
    status resp = 200 ∧
    JSON_stringify (body resp) =
      match created !! "id" with
      | Some id =>
          {[ "taskId" := id;
             "status" := JStr "started";
             "message" := JStr "Video generation task created successfully" ]}
      | None =>
          {[ "status" := JStr "started";
             "message" := JStr "Video generation task created successfully" ]}
      end.
Proof.
  intros Hp Hi Hsecret Hcreate Hid Hstatus. eexists _, _. split.
  { unfold answers. apply api_createVideo_started; [done..|].
    eapply createVideoGeneration_returns; [done..|]. by rewrite Hid, Hstatus. }
  split; [done|]. cbn [body].
  destruct (created !! "id") as [id|]; vm_compute; reflexivity.
Qed.

Lemma createVideo_body_on_the_wire_witness :
  ∃ resp w',
    answers
      (api_createVideo
         (Sample.env (Return Sample.key) (Return {[ "status" := JStr "starting" ]})
            (Throw Sample.no_task))
         Sample.create_query) world0 resp w' ∧
    status resp = 200 ∧
    JSON_stringify (body resp) =
      {[ "status" := JStr "started";
         "message" := JStr "Video generation task created successfully" ]}.
Proof.
  destruct (createVideo_body_on_the_wire
              (Sample.env (Return Sample.key) (Return {[ "status" := JStr "starting" ]})
                 (Throw Sample.no_task))
              Sample.create_query Sample.key {[ "status" := JStr "starting" ]} world0)
    as (resp & w' & Hanswers & Hstatus & Hbody); [vm_compute; reflexivity..|].
  exists resp, w'. split; [exact Hanswers|]. split; [exact Hstatus|].
  rewrite Hbody. vm_compute. reflexivity.
Defined.

(** X12.  The log line of [createVideoGeneration] is built inside the [try]
    block.  When "create prediction" returns a record whose [id] or [status]
    cannot be converted to a string (an object with a [toString] entry, or
    an array that holds one), the task has been created, since the call was
    made and returned, but the route answers HTTP 500 with the message of
    the conversion error under [details], and the client gets no
    [taskId]. *)
Theorem createVideo_log_line_failure env query key created w :
  truthy (query !! "prompt") = true →
  truthy (query !! "imageUrl") = true →
  accessSecretVersion env secret_path = Return key →
  predictions_create env key
    (create_request (query !! "prompt") (query !! "imageUrl")
       (query !! "resolution")) = Return created →
  convertible (created !! "id") = false ∨
    convertible (created !! "status") = false →
  ∃ resp w',
    answers (api_createVideo env query) w resp w' ∧
    status resp = 500 ∧
    on_wire resp "details" =
      Some (JStr "Cannot convert object to primitive value") ∧
    on_wire resp "taskId" = None ∧
    outbound w' =
      (outbound w ++
       [AccessSecretVersion secret_path;
        PredictionsCreate key
          (create_request (query !! "prompt") (query !! "imageUrl")
             (query !! "resolution"))])%list ∧
    console w' =
      (console w ++
       [ConsoleError "Error creating video generation:" cannot_convert;
        ConsoleError "Error in /api/createVideo:" cannot_convert])%list.
Proof.
  intros Hp Hi Hsecret Hcreate Hno.
  apply andb_false_iff in Hno.
  eexists _, _. split.
  { unfold answers. erewrite api_createVideo_fails; [|done..|].
    2: by eapply createVideoGeneration_log_throws.
    by rewrite caught_cannot_convert, logged_logged. }
  split; [done|]. split; [by apply on_wire_has|].
  split; [by apply on_wire_lacks|]. done.
Qed.

Lemma createVideo_log_line_failure_witness :
  ∃ resp w',
    answers
      (api_createVideo
         (Sample.env (Return Sample.key) (Return Sample.odd_record)
            (Throw Sample.no_task))
         Sample.create_query) world0 resp w' ∧
    status resp = 500 ∧
    on_wire resp "details" =
      Some (JStr "Cannot convert object to primitive value") ∧
    on_wire resp "taskId" = None ∧
    outbound w' =
      [AccessSecretVersion secret_path;
       PredictionsCreate Sample.key
         (create_request (Sample.create_query !! "prompt")
            (Sample.create_query !! "imageUrl")
            (Sample.create_query !! "resolution"))] ∧
    console w' =
      [ConsoleError "Error creating video generation:" cannot_convert;
       ConsoleError "Error in /api/createVideo:" cannot_convert].
Proof.
  apply (createVideo_log_line_failure
           (Sample.env (Return Sample.key) (Return Sample.odd_record)
              (Throw Sample.no_task))
           Sample.create_query Sample.key Sample.odd_record world0);
    [vm_compute; reflexivity..|]. left. vm_compute. reflexivity.
Defined.

(** ** The key and the answer *)

(** X11.  The answer and the console depend on the key only through the
    outcome of the remote call.  Two runs that differ in the key that the
    secret store returns, and in which the remote call made with either key
    has the same outcome, end in the same way (the same answer, or the same
    thrown value) and write the same lines to the console.  This holds for
    [/api/createVideo] and for [/api/checkStatus].  What the remote side
    returns or throws is passed on as it is, also when it names the key. *)
Theorem key_matters_through_remote_outcome_only env1 env2 query key1 key2 w :
  accessSecretVersion env1 secret_path = Return key1 →
  accessSecretVersion env2 secret_path = Return key2 →
  (predictions_create env1 key1
     (create_request (query !! "prompt") (query !! "imageUrl")
        (query !! "resolution"))
   = predictions_create env2 key2
       (create_request (query !! "prompt") (query !! "imageUrl")
          (query !! "resolution")) →
   (api_createVideo env1 query w).1 = (api_createVideo env2 query w).1 ∧
   console (api_createVideo env1 query w).2
     = console (api_createVideo env2 query w).2) ∧
  (predictions_get env1 key1 (query !! "taskId")
   = predictions_get env2 key2 (query !! "taskId") →
   (api_checkStatus env1 query w).1 = (api_checkStatus env2 query w).1 ∧
   console (api_checkStatus env1 query w).2
     = console (api_checkStatus env2 query w).2).
Proof.
  intros Hsecret1 Hsecret2. split.
  - intros Hsame.
    destruct (api_createVideo_cases env1 query w)
      as [[Hfalsy1 Hrun1] | (Hp1 & Hi1 & [(error1 & Hthrow1 & Hrun1)
           | [(k1 & error1 & Hk1 & Hcreate1 & Hrun1)
             | [(k1 & created1 & Hk1 & Hcreate1 & Hok1 & Hrun1)
               | (k1 & created1 & Hk1 & Hcreate1 & Hok1 & Hrun1)]]])];
    destruct (api_createVideo_cases env2 query w)
      as [[Hfalsy2 Hrun2] | (Hp2 & Hi2 & [(error2 & Hthrow2 & Hrun2)
           | [(k2 & error2 & Hk2 & Hcreate2 & Hrun2)
             | [(k2 & created2 & Hk2 & Hcreate2 & Hok2 & Hrun2)
               | (k2 & created2 & Hk2 & Hcreate2 & Hok2 & Hrun2)]]])];
    try (destruct Hfalsy1; congruence);
    try (destruct Hfalsy2; congruence);
    try congruence;
    try (assert (k1 = key1) as -> by congruence);
    try (assert (k2 = key2) as -> by congruence);
    try congruence;
    try (assert (error1 = error2) as -> by congruence);
    try (assert (created1 = created2) as -> by congruence);
    try congruence;
    by rewrite Hrun1, Hrun2.
  - intros Hsame.
    destruct (api_checkStatus_cases env1 query w)
      as [[Hfalsy1 Hrun1] | (Ht1 & [(error1 & Hthrow1 & Hrun1)
           | [(k1 & error1 & Hk1 & Hget1 & Hrun1)
             | (k1 & fetched1 & obj1 & Hk1 & Hget1 & Hobj1 & Hrun1)]])];
    destruct (api_checkStatus_cases env2 query w)
      as [[Hfalsy2 Hrun2] | (Ht2 & [(error2 & Hthrow2 & Hrun2)
           | [(k2 & error2 & Hk2 & Hget2 & Hrun2)
             | (k2 & fetched2 & obj2 & Hk2 & Hget2 & Hobj2 & Hrun2)]])];
    try congruence;
    try (assert (k1 = key1) as -> by congruence);
    try (assert (k2 = key2) as -> by congruence);
    try congruence;
    try (assert (error1 = error2) as -> by congruence);
    try (assert (fetched1 = fetched2) as -> by congruence);
    try (assert (obj1 = obj2) as ->
           by (destruct Hobj1 as [[-> ?] | [[-> ?] | (-> & ? & ?)]];
               destruct Hobj2 as [[-> ?] | [[-> ?] | (-> & ? & ?)]];
               congruence));
    by rewrite Hrun1, Hrun2.
Qed.

Lemma key_matters_through_remote_outcome_only_witness :
  ((api_createVideo
      (Sample.env (Return Sample.key) (Return (Sample.record "starting"))
         (Return (Sample.record "succeeded")))
      Sample.create_query world0).1
   = (api_createVideo
        (Sample.env (Return "r8_4567") (Return (Sample.record "starting"))
           (Return (Sample.record "succeeded")))
        Sample.create_query world0).1 ∧
   console
     (api_createVideo
        (Sample.env (Return Sample.key) (Return (Sample.record "starting"))
           (Return (Sample.record "succeeded")))
        Sample.create_query world0).2
   = console
       (api_createVideo
          (Sample.env (Return "r8_4567") (Return (Sample.record "starting"))
             (Return (Sample.record "succeeded")))
          Sample.create_query world0).2) ∧
  ((api_checkStatus
      (Sample.env (Return Sample.key) (Return (Sample.record "starting"))
         (Return (Sample.record "succeeded")))
      Sample.status_query world0).1
   = (api_checkStatus
        (Sample.env (Return "r8_4567") (Return (Sample.record "starting"))
           (Return (Sample.record "succeeded")))
        Sample.status_query world0).1 ∧
   console
     (api_checkStatus
        (Sample.env (Return Sample.key) (Return (Sample.record "starting"))
           (Return (Sample.record "succeeded")))
        Sample.status_query world0).2
   = console
       (api_checkStatus
          (Sample.env (Return "r8_4567") (Return (Sample.record "starting"))
             (Return (Sample.record "succeeded")))
          Sample.status_query world0).2).
Proof.
  split.
  - apply (key_matters_through_remote_outcome_only
             (Sample.env (Return Sample.key) (Return (Sample.record "starting"))
                (Return (Sample.record "succeeded")))
             (Sample.env (Return "r8_4567") (Return (Sample.record "starting"))
                (Return (Sample.record "succeeded")))
             Sample.create_query Sample.key "r8_4567" world0); reflexivity.
  - apply (key_matters_through_remote_outcome_only
             (Sample.env (Return Sample.key) (Return (Sample.record "starting"))
                (Return (Sample.record "succeeded")))
             (Sample.env (Return "r8_4567") (Return (Sample.record "starting"))
                (Return (Sample.record "succeeded")))
             Sample.status_query Sample.key "r8_4567" world0); reflexivity.
Defined.
